(** * Benchmark report generator ([plot_performance.py])

    A shallow embedding of the script that loads [benchmark_results.csv],
    prints a statistical summary and renders two figures.

    Modelling conventions.
    - Integer columns are [Z]; the numeric column [Time(ns)] is a rational
      [Q].  Arithmetic on finite numbers is exact and every result is kept
      in lowest terms ([Qred]), so that equal numbers are equal terms.
      Binary64 rounding of sums, quotients and roots is outside the model.
    - The special values a float column can hold are explicit ([fval]):
      a finite number, the two infinities and NaN.
    - The square root used by [std] and [corr] is a parameter of the
      model ([sqrtQ]); every statement holds for any choice of it.
    - pandas calls are modelled by their documented meaning: [unique]
      keeps first occurrences in order of appearance, [groupby] sorts its
      keys ascending and keeps the rows of a group in table order,
      [mean] skips NaN, [std] is the sample deviation (ddof = 1),
      [corr] is Pearson's coefficient.
    - [print], the file system, the [DataFrame] object created by
      [read_csv] and pyplot's implicit current figure are fields of one
      [World], threaded through a state-and-exception monad. *)

From Stdlib Require Import ZArith QArith Qround List String Ascii Bool Lia.
From Stdlib Require Import Qminmax Permutation Sorted OrderedTypeEx.
Import ListNotations.

Local Open Scope Z_scope.

(* ================================================================= *)
(** ** Numbers *)

Module Num.

(** Exact arithmetic with results in lowest terms. *)
Definition qadd (a b : Q) : Q := Qred (a + b).
Definition qsub (a b : Q) : Q := Qred (a - b).
Definition qmul (a b : Q) : Q := Qred (a * b).
Definition qdiv (a b : Q) : Q := Qred (a / b).
Definition qmin (a b : Q) : Q := Qred (if Qle_bool a b then a else b).
Definition qmax (a b : Q) : Q := Qred (if Qle_bool a b then b else a).

(** A float64 cell: a finite number, an infinity, or NaN. *)
Inductive fval : Type :=
| Fin (q : Q)
| PInf
| NInf
| NaN.

Definition is_finite (v : fval) : bool :=
  match v with Fin _ => true | _ => false end.

Definition notna (v : fval) : bool :=
  match v with NaN => false | _ => true end.

(** [a / b] of numpy's [true_divide] on a numeric numerator and an
    integer denominator: a zero denominator raises nothing, it yields
    an infinity of the numerator's sign, or NaN for [0 / 0]. *)
Definition true_divide (t : Q) (n : Z) : fval :=
  if n =? 0 then
    match Qcompare t 0 with
    | Gt => PInf
    | Lt => NInf
    | Eq => NaN
    end
  else Fin (qdiv t (inject_Z n)).

Definition fadd (a b : fval) : fval :=
  match a, b with
  | NaN, _ | _, NaN => NaN
  | Fin x, Fin y => Fin (qadd x y)
  | PInf, NInf | NInf, PInf => NaN
  | PInf, _ | _, PInf => PInf
  | NInf, _ | _, NInf => NInf
  end.

(** Division of a sum by a positive count. *)
Definition fdiv_count (s : fval) (n : nat) : fval :=
  match s with
  | Fin x => Fin (qdiv x (inject_Z (Z.of_nat n)))
  | other => other
  end.

(** Rounding to the nearest integer, ties to the even one. *)
Definition round_half_even (q : Q) : Z :=
  let f := Qfloor q in
  match Qcompare (q - inject_Z f) (1 # 2) with
  | Lt => f
  | Gt => f + 1
  | Eq => if Z.even f then f else f + 1
  end.

(** [round(q, d)]: rounding to [d] decimals. *)
Definition round_dec (d : nat) (q : Q) : Q :=
  let scale := inject_Z (10 ^ Z.of_nat d) in
  Qred (inject_Z (round_half_even (q * scale)) / scale).

Definition fround (d : nat) (v : fval) : fval :=
  match v with
  | Fin q => Fin (round_dec d q)
  | other => other
  end.

Definition sumQ (l : list Q) : Q := fold_right qadd 0%Q l.

Definition sumF (l : list fval) : fval := fold_right fadd (Fin 0%Q) l.

Definition lenQ {A} (l : list A) : Q := inject_Z (Z.of_nat (List.length l)).

End Num.
Import Num.

(* ================================================================= *)
(** ** Group keys *)

(** The labels pandas groups and sorts by: an equality test and an
    order test. *)
Class Key (K : Type) : Type := {
  keqb : K -> K -> bool;
  kleb : K -> K -> bool
}.

#[export] Instance Key_Z : Key Z :=
  {| keqb := Z.eqb; kleb := Z.leb |}.

#[export] Instance Key_string : Key string :=
  {| keqb := String.eqb; kleb := String.leb |}.

(* ================================================================= *)
(** ** Series operations *)

Section Series.
Context {K : Type} `{Key K}.

(** [Series.unique()]: distinct values in order of first appearance. *)
Fixpoint unique (l : list K) : list K :=
  match l with
  | [] => []
  | x :: r => x :: filter (fun y => negb (keqb x y)) (unique r)
  end.

Fixpoint insert_sorted (a : K) (l : list K) : list K :=
  match l with
  | [] => [a]
  | x :: r => if kleb a x then a :: l else x :: insert_sorted a r
  end.

(** Python's [sorted]. *)
Definition sorted (l : list K) : list K := fold_right insert_sorted [] l.

(** The rows of one group, in table order. *)
Definition group_of {V : Type} (k : K) (kv : list (K * V)) : list V :=
  map snd (filter (fun p => keqb (fst p) k) kv).

(** [groupby(key)[col]]: one group per distinct key, keys ascending. *)
Definition groupby {V : Type} (kv : list (K * V)) : list (K * list V) :=
  map (fun k => (k, group_of k kv)) (sorted (unique (map fst kv))).

(** [.agg(f)] / [.mean()] on a grouped column. *)
Definition agg {V R : Type} (f : list V -> R) (g : list (K * list V))
  : list (K * R) :=
  map (fun kg => (fst kg, f (snd kg))) g.

End Series.

(* ================================================================= *)
(** ** Aggregates *)

(** The square root of the arithmetic runtime. *)
Class Sqrt : Type := sqrtQ : Q -> Q.

Section Aggregates.
Context {S : Sqrt}.

(** [mean] of a column of finite numbers; NaN on an empty one. *)
Definition mean (l : list Q) : fval :=
  match l with
  | [] => NaN
  | _ => Fin (qdiv (sumQ l) (lenQ l))
  end.

(** [mean] of a float column: NaN cells are skipped. *)
Definition mean_skipna (l : list fval) : fval :=
  let v := filter notna l in
  match v with
  | [] => NaN
  | _ => fdiv_count (sumF v) (List.length v)
  end.

Definition sq_dev (m x : Q) : Q := qmul (qsub x m) (qsub x m).

(** Sample standard deviation (ddof = 1); NaN below two values. *)
Definition std (l : list Q) : fval :=
  if (List.length l <=? 1)%nat then NaN
  else
    let m := qdiv (sumQ l) (lenQ l) in
    Fin (sqrtQ (qdiv (sumQ (map (sq_dev m) l)) (Qred (lenQ l - 1)))).

Definition opt_min (x : Q) (acc : option Q) : option Q :=
  match acc with
  | None => Some (Qred x)
  | Some m => Some (qmin x m)
  end.

Definition opt_max (x : Q) (acc : option Q) : option Q :=
  match acc with
  | None => Some (Qred x)
  | Some m => Some (qmax x m)
  end.

Definition of_option (o : option Q) : fval :=
  match o with Some q => Fin q | None => NaN end.

Definition min_ (l : list Q) : fval := of_option (fold_right opt_min None l).
Definition max_ (l : list Q) : fval := of_option (fold_right opt_max None l).

(** Pearson's coefficient of two aligned columns; NaN when there is no
    row or when the product of the spreads has a zero root. *)
Definition pearson (xs ys : list Q) : fval :=
  let xy := combine xs ys in
  match xy with
  | [] => NaN
  | _ =>
      let mx := qdiv (sumQ (map fst xy)) (lenQ xy) in
      let my := qdiv (sumQ (map snd xy)) (lenQ xy) in
      let cov := sumQ (map (fun p => qmul (qsub (fst p) mx) (qsub (snd p) my)) xy) in
      let sx := sumQ (map (fun p => sq_dev mx (fst p)) xy) in
      let sy := sumQ (map (fun p => sq_dev my (snd p)) xy) in
      let d := sqrtQ (qmul sx sy) in
      if Qeq_bool d 0 then NaN else Fin (qdiv cov d)
  end.

(** [DataFrame.corr()]: the matrix of pairwise coefficients. *)
Definition corr (cols : list (list Q)) : list (list fval) :=
  map (fun a => map (fun b => pearson a b) cols) cols.

(** [.iloc[i, j]] on a matrix. *)
Definition iloc (m : list (list fval)) (i j : nat) : fval :=
  nth j (nth i m []) NaN.

End Aggregates.

(* ================================================================= *)
(** ** Data model *)

Record BenchmarkRecord : Type := {
  ArraySize : Z;
  InputType : string;
  HasMajority : bool;
  Time_ns : Q;
  Comparisons : Z;
  ArrayAccess : Z
}.

(** The table: the six CSV columns row by row, and the derived column
    once it has been assigned. *)
Record DataFrame : Type := {
  records : list BenchmarkRecord;
  TimePerElement : option (list fval)
}.

(** The table [read_csv] creates from the rows of the file. *)
Definition loaded (table : list BenchmarkRecord) : DataFrame :=
  {| records := table; TimePerElement := None |}.

Definition columns (d : DataFrame) : list string :=
  ["ArraySize"; "InputType"; "HasMajority"; "Time(ns)"; "Comparisons";
   "ArrayAccess"]%string
  ++ match TimePerElement d with Some _ => ["TimePerElement"%string] | None => [] end.

(** [len(df)] *)
Definition len (d : DataFrame) : Z := Z.of_nat (List.length (records d)).

(** [df[name]] for a CSV column. *)
Definition col {A : Type} (f : BenchmarkRecord -> A) (d : DataFrame) : list A :=
  map f (records d).

(** [df[mask]]: a new table with the rows the mask keeps. *)
Definition select (p : BenchmarkRecord -> bool) (d : DataFrame) : DataFrame :=
  {| records := filter p (records d);
     TimePerElement :=
       option_map
         (fun c => map snd (filter (fun rc => p (fst rc)) (combine (records d) c)))
         (TimePerElement d) |}.

(** [df[name] = values] *)
Definition set_TimePerElement (c : list fval) (d : DataFrame) : DataFrame :=
  {| records := records d; TimePerElement := Some c |}.

(** [df.groupby(key)[value]] *)
Definition groupby_col {K V : Type} `{Key K}
    (key : BenchmarkRecord -> K) (value : BenchmarkRecord -> V)
    (d : DataFrame) : list (K * list V) :=
  groupby (map (fun r => (key r, value r)) (records d)).

(* ================================================================= *)
(** ** pyplot *)

Inductive scale : Type := Linear | Log.

Record Line2D : Type := {
  xdata : list Z;
  ydata : list fval;
  fmt : string;
  label : string
}.

Record Axes : Type := {
  position : Z * Z * Z;
  lines : list Line2D;
  boxes : option (list (string * list Q));
  xlabel : string;
  ylabel : string;
  title : string;
  has_legend : bool;
  has_grid : bool;
  xscale : scale;
  yscale : scale;
  xtick_rotation : Z
}.

(** A figure; [axes] lists the panels, the current one first. *)
Record Figure : Type := {
  figsize : option (Z * Z);
  axes : list Axes;
  tight : bool
}.

(** pyplot's global state; [figures] has the current figure first. *)
Record Pyplot : Type := {
  style : string;
  palette : string;
  figures : list Figure
}.

Definition new_axes (pos : Z * Z * Z) : Axes :=
  {| position := pos; lines := []; boxes := None;
     xlabel := ""; ylabel := ""; title := "";
     has_legend := false; has_grid := false;
     xscale := Linear; yscale := Linear; xtick_rotation := 0 |}.

Definition new_figure (size : option (Z * Z)) : Figure :=
  {| figsize := size; axes := []; tight := false |}.

(* ================================================================= *)
(** ** The world *)

Inductive File : Type :=
| CsvFile (table : list BenchmarkRecord)
| ImageFile (dpi : Z) (fig : Figure).

(** What [print] writes: literal text, and text followed by a value. *)
Inductive out : Type :=
| Text (s : string)
| TextInt (s : string) (n : Z)
| TextInts (s : string) (l : list Z)
| TextStrs (s : string) (l : list string)
| TextNum (s : string) (v : fval)
| FrameByInt (cols : list string) (rows : list (Z * list fval))
| FrameByStr (cols : list string) (rows : list (string * list fval))
| SeriesByInt (rows : list (Z * fval)).

Definition ref : Type := nat.

Record World : Type := {
  files : list (string * File);
  stdout : list out;
  frames : list DataFrame;
  pyplot : Pyplot;
  displayed : list Figure
}.

Inductive exn : Type :=
| FileNotFoundError (path : string)
| ParserError (path : string)
| ValueError (msg : string)
| ReferenceError (r : ref).

Inductive result (A : Type) : Type :=
| Ok (a : A) (w : World)
| Raised (e : exn).
Arguments Ok {A} a w.
Arguments Raised {A} e.

Definition M (A : Type) : Type := World -> result A.

Definition ret {A : Type} (a : A) : M A := fun w => Ok a w.

Definition bind {A B : Type} (m : M A) (k : A -> M B) : M B :=
  fun w => match m w with
           | Ok a w' => k a w'
           | Raised e => Raised e
           end.

Definition raise {A : Type} (e : exn) : M A := fun _ => Raised e.

Declare Scope monad_scope.
Delimit Scope monad_scope with monad.
Notation "x <- m ;; k" := (bind m (fun x => k))
  (at level 61, m at next level, right associativity) : monad_scope.
Notation "m ;; k" := (bind m (fun _ => k))
  (at level 61, right associativity) : monad_scope.
Local Open Scope monad_scope.

Fixpoint for_ {A : Type} (l : list A) (body : A -> M unit) : M unit :=
  match l with
  | [] => ret tt
  | x :: r => body x ;; for_ r body
  end.

Definition with_files (fs : list (string * File)) (w : World) : World :=
  {| files := fs; stdout := stdout w; frames := frames w;
     pyplot := pyplot w; displayed := displayed w |}.

Definition with_stdout (o : list out) (w : World) : World :=
  {| files := files w; stdout := o; frames := frames w;
     pyplot := pyplot w; displayed := displayed w |}.

Definition with_frames (f : list DataFrame) (w : World) : World :=
  {| files := files w; stdout := stdout w; frames := f;
     pyplot := pyplot w; displayed := displayed w |}.

Definition with_pyplot (p : Pyplot) (w : World) : World :=
  {| files := files w; stdout := stdout w; frames := frames w;
     pyplot := p; displayed := displayed w |}.

Definition with_displayed (d : list Figure) (w : World) : World :=
  {| files := files w; stdout := stdout w; frames := frames w;
     pyplot := pyplot w; displayed := d |}.

(** *** Console *)

Definition print (o : out) : M unit :=
  fun w => Ok tt (with_stdout (stdout w ++ [o]) w).

(** *** File system *)

Definition lookup_file (name : string) (fs : list (string * File)) : option File :=
  option_map snd (find (fun p => String.eqb (fst p) name) fs).

Definition write_file (name : string) (f : File) (fs : list (string * File))
  : list (string * File) :=
  (name, f) :: filter (fun p => negb (String.eqb (fst p) name)) fs.

Definition os_path_exists (name : string) : M bool :=
  fun w => Ok (match lookup_file name (files w) with Some _ => true | None => false end) w.

(** *** DataFrame objects *)

Definition frame_at (w : World) (r : ref) : option DataFrame :=
  nth_error (frames w) r.

Definition get_frame (r : ref) : M DataFrame :=
  fun w => match frame_at w r with
           | Some d => Ok d w
           | None => Raised (ReferenceError r)
           end.

Fixpoint list_set {A : Type} (n : nat) (a : A) (l : list A) : list A :=
  match l, n with
  | [], _ => []
  | _ :: r, O => a :: r
  | x :: r, S n' => x :: list_set n' a r
  end.

Definition update_frame (r : ref) (f : DataFrame -> DataFrame) : M unit :=
  fun w => match frame_at w r with
           | Some d => Ok tt (with_frames (list_set r (f d) (frames w)) w)
           | None => Raised (ReferenceError r)
           end.

(** [pd.read_csv]: a new table object holding the file's rows. *)
Definition pd_read_csv (name : string) : M ref :=
  fun w => match lookup_file name (files w) with
           | Some (CsvFile table) =>
               Ok (List.length (frames w))
                  (with_frames
                     (frames w ++ [{| records := table; TimePerElement := None |}]) w)
           | Some (ImageFile _ _) => Raised (ParserError name)
           | None => Raised (FileNotFoundError name)
           end.

(** *** pyplot calls *)

Definition gcf (p : Pyplot) : Figure :=
  match figures p with
  | fig :: _ => fig
  | [] => new_figure None
  end.

(** Apply [f] to the current figure, creating one when there is none. *)
Definition on_figure (f : Figure -> Figure) (p : Pyplot) : Pyplot :=
  {| style := style p; palette := palette p;
     figures := f (gcf p) :: tl (figures p) |}.

Definition gca (fig : Figure) : Axes :=
  match axes fig with
  | a :: _ => a
  | [] => new_axes (1, 1, 1)
  end.

(** Apply [f] to the current axes, creating them when there are none. *)
Definition on_axes (f : Axes -> Axes) (fig : Figure) : Figure :=
  {| figsize := figsize fig; axes := f (gca fig) :: tl (axes fig);
     tight := tight fig |}.

Definition gca_do (f : Axes -> Axes) : M unit :=
  fun w => Ok tt (with_pyplot (on_figure (on_axes f) (pyplot w)) w).

Definition plt_style_use (name : string) : M unit :=
  fun w => Ok tt (with_pyplot {| style := name; palette := palette (pyplot w);
                                 figures := figures (pyplot w) |} w).

Definition sns_set_palette (name : string) : M unit :=
  fun w => Ok tt (with_pyplot {| style := style (pyplot w); palette := name;
                                 figures := figures (pyplot w) |} w).

Definition plt_figure (size : Z * Z) : M unit :=
  fun w => Ok tt (with_pyplot {| style := style (pyplot w);
                                 palette := palette (pyplot w);
                                 figures := new_figure (Some size) :: figures (pyplot w) |} w).

Definition pos_eqb (p q : Z * Z * Z) : bool :=
  let '(a, b, c) := p in
  let '(a', b', c') := q in
  (a =? a') && (b =? b') && (c =? c').

(** [plt.subplot(r, c, i)]: the axes at that position become current;
    they are created when the figure has none there. *)
Definition subplot_in (pos : Z * Z * Z) (fig : Figure) : Figure :=
  let (same, others) := partition (fun a => pos_eqb (position a) pos) (axes fig) in
  {| figsize := figsize fig;
     axes := match same with
             | a :: _ => a :: others
             | [] => new_axes pos :: axes fig
             end;
     tight := tight fig |}.

Definition plt_subplot (r c i : Z) : M unit :=
  fun w => Ok tt (with_pyplot (on_figure (subplot_in (r, c, i)) (pyplot w)) w).

Definition add_line (l : Line2D) (a : Axes) : Axes :=
  {| position := position a; lines := lines a ++ [l]; boxes := boxes a;
     xlabel := xlabel a; ylabel := ylabel a; title := title a;
     has_legend := has_legend a; has_grid := has_grid a;
     xscale := xscale a; yscale := yscale a;
     xtick_rotation := xtick_rotation a |}.

Definition set_scales (sx sy : scale) (a : Axes) : Axes :=
  {| position := position a; lines := lines a; boxes := boxes a;
     xlabel := xlabel a; ylabel := ylabel a; title := title a;
     has_legend := has_legend a; has_grid := has_grid a;
     xscale := sx; yscale := sy;
     xtick_rotation := xtick_rotation a |}.

Definition same_length {A B : Type} (xs : list A) (ys : list B) : bool :=
  (List.length xs =? List.length ys)%nat.

(** [plt.plot(x, y, fmt, label=...)]: a line on the current axes;
    ValueError when [x] and [y] differ in length. *)
Definition plt_plot (xs : list Z) (ys : list fval) (f lbl : string) : M unit :=
  if same_length xs ys then
    gca_do (add_line {| xdata := xs; ydata := ys; fmt := f; label := lbl |})
  else raise (ValueError "x and y must have same first dimension").

(** [plt.loglog]: [plot] with both axes logarithmic. *)
Definition plt_loglog (xs : list Z) (ys : list fval) (f lbl : string) : M unit :=
  if same_length xs ys then
    gca_do (fun a =>
      set_scales Log Log
        (add_line {| xdata := xs; ydata := ys; fmt := f; label := lbl |} a))
  else raise (ValueError "x and y must have same first dimension").

Definition plt_xlabel (s : string) : M unit :=
  gca_do (fun a =>
    {| position := position a; lines := lines a; boxes := boxes a;
       xlabel := s; ylabel := ylabel a; title := title a;
       has_legend := has_legend a; has_grid := has_grid a;
       xscale := xscale a; yscale := yscale a;
       xtick_rotation := xtick_rotation a |}).

Definition plt_ylabel (s : string) : M unit :=
  gca_do (fun a =>
    {| position := position a; lines := lines a; boxes := boxes a;
       xlabel := xlabel a; ylabel := s; title := title a;
       has_legend := has_legend a; has_grid := has_grid a;
       xscale := xscale a; yscale := yscale a;
       xtick_rotation := xtick_rotation a |}).

Definition plt_title (s : string) : M unit :=
  gca_do (fun a =>
    {| position := position a; lines := lines a; boxes := boxes a;
       xlabel := xlabel a; ylabel := ylabel a; title := s;
       has_legend := has_legend a; has_grid := has_grid a;
       xscale := xscale a; yscale := yscale a;
       xtick_rotation := xtick_rotation a |}).

Definition plt_legend : M unit :=
  gca_do (fun a =>
    {| position := position a; lines := lines a; boxes := boxes a;
       xlabel := xlabel a; ylabel := ylabel a; title := title a;
       has_legend := true; has_grid := has_grid a;
       xscale := xscale a; yscale := yscale a;
       xtick_rotation := xtick_rotation a |}).

Definition plt_grid : M unit :=
  gca_do (fun a =>
    {| position := position a; lines := lines a; boxes := boxes a;
       xlabel := xlabel a; ylabel := ylabel a; title := title a;
       has_legend := has_legend a; has_grid := true;
       xscale := xscale a; yscale := yscale a;
       xtick_rotation := xtick_rotation a |}).

Definition plt_xticks_rotation (deg : Z) : M unit :=
  gca_do (fun a =>
    {| position := position a; lines := lines a; boxes := boxes a;
       xlabel := xlabel a; ylabel := ylabel a; title := title a;
       has_legend := has_legend a; has_grid := has_grid a;
       xscale := xscale a; yscale := yscale a;
       xtick_rotation := deg |}).

(** The line artists seaborn adds to the axes when it draws the given
    boxes (whiskers, caps, medians, fliers).  Their number and
    coordinates are seaborn's business: a parameter of the model. *)
Class BoxArtists : Type := box_artists : list (string * list Q) -> list Line2D.

Section Drawing.
Context {BA : BoxArtists}.

(** The boxes of [sns.boxplot(data, x='InputType', y='Time(ns)')]: one
    per category, in order of appearance, with the values it holds. *)
Definition box_groups (d : DataFrame) : list (string * list Q) :=
  map (fun c => (c, group_of c (map (fun r => (InputType r, Time_ns r)) (records d))))
      (unique (col InputType d)).

(** [sns.boxplot(data, x='InputType', y='Time(ns)')]: the boxes and
    their line artists are drawn on the current axes, and the axes are
    labelled with the two column names. *)
Definition sns_boxplot (d : DataFrame) : M unit :=
  gca_do (fun a =>
    {| position := position a;
       lines := lines a ++ box_artists (box_groups d);
       boxes := Some (box_groups d);
       xlabel := "InputType"; ylabel := "Time(ns)"; title := title a;
       has_legend := has_legend a; has_grid := has_grid a;
       xscale := xscale a; yscale := yscale a;
       xtick_rotation := xtick_rotation a |}).

Definition plt_tight_layout : M unit :=
  fun w => Ok tt (with_pyplot
                    (on_figure (fun fig => {| figsize := figsize fig; axes := axes fig;
                                              tight := true |}) (pyplot w)) w).

(** [plt.savefig(name, dpi=...)]: the current figure is written to the
    file system. *)
Definition plt_savefig (name : string) (dpi : Z) : M unit :=
  fun w =>
    let p := on_figure (fun fig => fig) (pyplot w) in
    Ok tt (with_files (write_file name (ImageFile dpi (gcf p)) (files w))
                      (with_pyplot p w)).

(** [plt.show()]: the open figures are displayed, then closed. *)
Definition plt_show : M unit :=
  fun w =>
    Ok tt (with_displayed (displayed w ++ rev (figures (pyplot w)))
             (with_pyplot {| style := style (pyplot w); palette := palette (pyplot w);
                             figures := [] |} w)).

(* ================================================================= *)
(** ** The script *)

Definition nl : string := String (ascii_of_nat 10) EmptyString.

Fixpoint string_repeat (s : string) (n : nat) : string :=
  match n with
  | O => EmptyString
  | S n' => s ++ string_repeat s n'
  end.

(** [str(b)] of a Python bool. *)
Definition str_bool (b : bool) : string := if b then "True" else "False".

Definition csv_file : string := "benchmark_results.csv".

(** Load CSV data and generate performance plots *)
Definition load_and_analyze_data : M (option ref) :=
  found <- os_path_exists csv_file ;;
  if negb found then
    print (Text ("Error: " ++ csv_file ++ " not found. Run benchmarks first.")) ;;
    ret None
  else
    df <- pd_read_csv csv_file ;;
    print (Text "Data loaded successfully:") ;;
    d <- get_frame df ;;
    print (TextInt "Total records: " (len d)) ;;
    d <- get_frame df ;;
    print (TextInts "Array sizes: " (unique (col ArraySize d))) ;;
    d <- get_frame df ;;
    print (TextStrs "Distributions: " (unique (col InputType d))) ;;
    ret (Some df).

Definition fixed_size : Z := 10000.

Definition Time_of (r : BenchmarkRecord) : Q := Time_ns r.
Definition Comparisons_of (r : BenchmarkRecord) : Q := inject_Z (Comparisons r).
Definition ArrayAccess_of (r : BenchmarkRecord) : Q := inject_Z (ArrayAccess r).

(** [subset.groupby('ArraySize')[value].mean()] *)
Definition mean_by_size (value : BenchmarkRecord -> Q) (subset : DataFrame)
  : list (Z * fval) :=
  agg mean (groupby_col ArraySize value subset).

(** Create various performance analysis plots *)
Definition create_performance_plots (df : ref) : M unit :=
  plt_style_use "seaborn-v0_8" ;;
  sns_set_palette "husl" ;;
  (* 1. Time vs Array Size (log-log plot) *)
  plt_figure (12, 8) ;;
  plt_subplot 2 2 1 ;;
  d <- get_frame df ;;
  for_ (unique (col InputType d)) (fun distribution =>
    d <- get_frame df ;;
    let subset := select (fun r => String.eqb (InputType r) distribution) d in
    let grouped := mean_by_size Time_of subset in
    plt_loglog (map fst grouped) (map snd grouped) "o-" distribution) ;;
  plt_xlabel "Array Size" ;;
  plt_ylabel "Time (ns)" ;;
  plt_title ("Time Complexity Analysis" ++ nl ++ "(Log-Log Scale)") ;;
  plt_legend ;;
  plt_grid ;;
  (* 2. Comparisons vs Array Size *)
  plt_subplot 2 2 2 ;;
  for_ ["RANDOM"; "SORTED"; "WORST_CASE"]%string (fun distribution =>
    d <- get_frame df ;;
    let subset := select (fun r => String.eqb (InputType r) distribution) d in
    if len subset >? 0 then
      let grouped := mean_by_size Comparisons_of subset in
      plt_plot (map fst grouped) (map snd grouped) "o-" distribution
    else ret tt) ;;
  plt_xlabel "Array Size" ;;
  plt_ylabel "Number of Comparisons" ;;
  plt_title "Comparison Count Analysis" ;;
  plt_legend ;;
  plt_grid ;;
  (* 3. Array Access vs Array Size *)
  plt_subplot 2 2 3 ;;
  for_ [true; false] (fun has_majority =>
    d <- get_frame df ;;
    let subset := select (fun r => Bool.eqb (HasMajority r) has_majority) d in
    let grouped := mean_by_size ArrayAccess_of subset in
    plt_plot (map fst grouped) (map snd grouped) "o-"
             ("Has Majority: " ++ str_bool has_majority)) ;;
  plt_xlabel "Array Size" ;;
  plt_ylabel "Array Accesses" ;;
  plt_title "Memory Access Patterns" ;;
  plt_legend ;;
  plt_grid ;;
  (* 4. Distribution comparison for fixed size *)
  plt_subplot 2 2 4 ;;
  d <- get_frame df ;;
  let subset := select (fun r => ArraySize r =? fixed_size) d in
  (if len subset >? 0 then
     sns_boxplot subset ;;
     plt_xticks_rotation 45 ;;
     plt_title ("Performance Distribution" ++ nl ++ "(Size = 10000)") ;;
     plt_tight_layout
   else ret tt) ;;
  plt_tight_layout ;;
  plt_savefig "performance_analysis.png" 300 ;;
  plt_show.

(** The value of an [np.int64] result: 64-bit two's complement, so a
    product that leaves the range wraps around. *)
Definition wrap64 (z : Z) : Z := (z + 2 ^ 63) mod 2 ^ 64 - 2 ^ 63.

(** Compare theoretical vs actual performance *)
Definition create_theoretical_validation (df : ref) : M unit :=
  plt_figure (10, 6) ;;
  (* Theoretical O(n) line *)
  d <- get_frame df ;;
  let subset := select (fun r => String.eqb (InputType r) "RANDOM") d in
  let theoretical_n := map (fun n => wrap64 (n * 100)) (unique (col ArraySize subset)) in
  (* Actual performance *)
  let actual_times := map snd (mean_by_size Time_of subset) in
  plt_plot (unique (col ArraySize subset))
           (map (fun y => Fin (inject_Z y)) theoretical_n)
           "r--" "Theoretical O(n)" ;;
  plt_plot (unique (col ArraySize subset)) actual_times
           "bo-" "Actual Performance" ;;
  plt_xlabel "Array Size (n)" ;;
  plt_ylabel "Time (ns)" ;;
  plt_title ("Theoretical vs Actual Performance" ++ nl
             ++ "(Linear Complexity Validation)") ;;
  plt_legend ;;
  plt_grid ;;
  plt_savefig "theory_vs_practice.png" 300 ;;
  plt_show.

Section Summary.
Context {S : Sqrt}.

(** [df.groupby('ArraySize')['Time(ns)'].agg(['mean','std','min','max'])] *)
Definition time_by_size (d : DataFrame) : list (Z * list fval) :=
  agg (fun g => [mean g; std g; min_ g; max_ g])
      (groupby_col ArraySize Time_of d).

(** [df.groupby('InputType')['Time(ns)'].agg(['mean','std'])] *)
Definition time_by_dist (d : DataFrame) : list (string * list fval) :=
  agg (fun g => [mean g; std g]) (groupby_col InputType Time_of d).

(** [df[['ArraySize','Time(ns)']].corr().iloc[0,1]] *)
Definition correlation (d : DataFrame) : fval :=
  iloc (corr [col (fun r => inject_Z (ArraySize r)) d; col Time_of d]) 0 1.

(** [df['Time(ns)'] / df['ArraySize']] *)
Definition time_per_element (d : DataFrame) : list fval :=
  map (fun r => true_divide (Time_ns r) (ArraySize r)) (records d).

(** [df.groupby('ArraySize')['TimePerElement'].mean()] *)
Definition efficiency (d : DataFrame) : list (Z * fval) :=
  match TimePerElement d with
  | Some c => agg mean_skipna (groupby (combine (col ArraySize d) c))
  | None => []
  end.

(** [frame.round(2)] *)
Definition round_frame {K : Type} (t : list (K * list fval)) : list (K * list fval) :=
  map (fun row => (fst row, map (fround 2) (snd row))) t.

Definition round_series {K : Type} (t : list (K * fval)) : list (K * fval) :=
  map (fun row => (fst row, fround 2 (snd row))) t.

(** Generate statistical analysis of benchmark results *)
Definition generate_statistical_summary (df : ref) : M unit :=
  print (Text (nl ++ "=== STATISTICAL SUMMARY ===")) ;;
  (* Basic statistics *)
  d <- get_frame df ;;
  print (TextInt "Total benchmark runs: " (len d)) ;;
  d <- get_frame df ;;
  print (TextInts "Array sizes tested: " (sorted (unique (col ArraySize d)))) ;;
  (* Performance by size *)
  print (Text (nl ++ "Average Time by Array Size:")) ;;
  d <- get_frame df ;;
  print (FrameByInt ["mean"; "std"; "min"; "max"]%string
                    (round_frame (time_by_size d))) ;;
  (* Performance by distribution *)
  print (Text (nl ++ "Average Time by Input Distribution:")) ;;
  d <- get_frame df ;;
  print (FrameByStr ["mean"; "std"]%string (round_frame (time_by_dist d))) ;;
  (* Complexity analysis *)
  print (Text (nl ++ "Complexity Analysis (Time vs Size correlation):")) ;;
  d <- get_frame df ;;
  print (TextNum "Correlation coefficient: " (fround 4 (correlation d))) ;;
  (* Efficiency metrics *)
  print (Text (nl ++ "Efficiency Metrics:")) ;;
  d <- get_frame df ;;
  update_frame df (set_TimePerElement (time_per_element d)) ;;
  d <- get_frame df ;;
  print (Text "Average time per element (ns):") ;;
  print (SeriesByInt (round_series (efficiency d))).

(** The script's entry point. *)
Definition main : M unit :=
  print (Text "Boyer-Moore Majority Vote Performance Analysis") ;;
  print (Text (string_repeat "=" 50)) ;;
  df <- load_and_analyze_data ;;
  match df with
  | Some df =>
      generate_statistical_summary df ;;
      create_performance_plots df ;;
      create_theoretical_validation df ;;
      print (Text (nl ++ "Plots saved as 'performance_analysis.png' and 'theory_vs_practice.png'"))
  | None => ret tt
  end.

End Summary.

(** The state the interpreter starts in: only the file system is given. *)
Definition initial_world (fs : list (string * File)) : World :=
  {| files := fs; stdout := []; frames := [];
     pyplot := {| style := "default"; palette := "deep"; figures := [] |};
     displayed := [] |}.

(** A computable square root for running the model: the largest
    multiple of [10^-6] whose square does not exceed the argument. *)
Definition sqrt_floor : Sqrt :=
  fun q => Qred (Z.sqrt (Qfloor (q * inject_Z (10 ^ 12))) # 1000000).

(** [sub in s] on strings. *)
Fixpoint prefix_of (p s : string) : bool :=
  match p, s with
  | EmptyString, _ => true
  | String a p', String b s' => Ascii.eqb a b && prefix_of p' s'
  | String _ _, EmptyString => false
  end.

Fixpoint contains (sub s : string) : bool :=
  prefix_of sub s ||
  match s with
  | EmptyString => false
  | String _ s' => contains sub s'
  end.

(** Sample rows used to run the model. *)
Definition row (n : Z) (ty : string) (maj : bool) (t : Q) (c a : Z) : BenchmarkRecord :=
  {| ArraySize := n; InputType := ty; HasMajority := maj; Time_ns := t;
     Comparisons := c; ArrayAccess := a |}.

(* ================================================================= *)
(** ** Observations used in the statements *)

(** The laws a key type has to satisfy. *)
Class KeyLaws (K : Type) `{Key K} : Prop := {
  keqb_eq : forall a b : K, keqb a b = true <-> a = b;
  kleb_total : forall a b : K, kleb a b = true \/ kleb b a = true;
  kleb_antisym : forall a b : K, kleb a b = true -> kleb b a = true -> a = b;
  kleb_trans : forall a b c : K, kleb a b = true -> kleb b c = true -> kleb a c = true
}.

(** The figure an image file holds. *)
Definition saved_figure (name : string) (w : World) : option Figure :=
  match lookup_file name (files w) with
  | Some (ImageFile _ fig) => Some fig
  | _ => None
  end.

(** The panel of a figure at position [pos]. *)
Definition panel (pos : Z * Z * Z) (fig : Figure) : option Axes :=
  find (fun a => pos_eqb (position a) pos) (axes fig).

(** The points a line draws. *)
Definition points (l : Line2D) : list (Z * fval) := combine (xdata l) (ydata l).

(** The line [plt.plot(grouped.index, grouped.values, f, label=lbl)] for
    [grouped = df[mask].groupby('ArraySize')[value].mean()]. *)
Definition series (value : BenchmarkRecord -> Q) (mask : BenchmarkRecord -> bool)
    (f lbl : string) (d : DataFrame) : Line2D :=
  let grouped := mean_by_size value (select mask d) in
  {| xdata := map fst grouped; ydata := map snd grouped; fmt := f; label := lbl |}.

Definition is_type (ty : string) (r : BenchmarkRecord) : bool :=
  String.eqb (InputType r) ty.

(** The four panels [create_performance_plots] draws for a table [d]. *)
Definition panelA (d : DataFrame) : Axes :=
  let types := unique (col InputType d) in
  {| position := (2, 2, 1);
     lines := map (fun ty => series Time_of (is_type ty) "o-" ty d) types;
     boxes := None;
     xlabel := "Array Size"; ylabel := "Time (ns)";
     title := "Time Complexity Analysis" ++ nl ++ "(Log-Log Scale)";
     has_legend := true; has_grid := true;
     xscale := match types with [] => Linear | _ => Log end;
     yscale := match types with [] => Linear | _ => Log end;
     xtick_rotation := 0 |}.

Definition panelB (d : DataFrame) : Axes :=
  {| position := (2, 2, 2);
     lines := flat_map
                (fun ty => if len (select (is_type ty) d) >? 0
                           then [series Comparisons_of (is_type ty) "o-" ty d]
                           else [])
                ["RANDOM"; "SORTED"; "WORST_CASE"]%string;
     boxes := None;
     xlabel := "Array Size"; ylabel := "Number of Comparisons";
     title := "Comparison Count Analysis";
     has_legend := true; has_grid := true;
     xscale := Linear; yscale := Linear; xtick_rotation := 0 |}.

Definition panelC (d : DataFrame) : Axes :=
  {| position := (2, 2, 3);
     lines := map (fun b => series ArrayAccess_of
                              (fun r => Bool.eqb (HasMajority r) b) "o-"
                              ("Has Majority: " ++ str_bool b) d)
                  [true; false];
     boxes := None;
     xlabel := "Array Size"; ylabel := "Array Accesses";
     title := "Memory Access Patterns";
     has_legend := true; has_grid := true;
     xscale := Linear; yscale := Linear; xtick_rotation := 0 |}.

Definition panelD (d : DataFrame) : Axes :=
  let subset := select (fun r => ArraySize r =? fixed_size) d in
  if len subset >? 0 then
    {| position := (2, 2, 4);
       lines := box_artists (box_groups subset);
       boxes := Some (box_groups subset);
       xlabel := "InputType"; ylabel := "Time(ns)";
       title := "Performance Distribution" ++ nl ++ "(Size = 10000)";
       has_legend := false; has_grid := false;
       xscale := Linear; yscale := Linear; xtick_rotation := 45 |}
  else new_axes (2, 2, 4).

Definition performance_figure (d : DataFrame) : Figure :=
  {| figsize := Some (12, 8);
     axes := [panelD d; panelC d; panelB d; panelA d];
     tight := true |}.

(** The two curves [create_theoretical_validation] draws for [d]. *)
Definition random_subset (d : DataFrame) : DataFrame :=
  select (is_type "RANDOM") d.

Definition reference_curve (d : DataFrame) : Line2D :=
  let sizes := unique (col ArraySize (random_subset d)) in
  {| xdata := sizes;
     ydata := map (fun y => Fin (inject_Z y)) (map (fun n => wrap64 (n * 100)) sizes);
     fmt := "r--"; label := "Theoretical O(n)" |}.

Definition actual_curve (d : DataFrame) : Line2D :=
  {| xdata := unique (col ArraySize (random_subset d));
     ydata := map snd (mean_by_size Time_of (random_subset d));
     fmt := "bo-"; label := "Actual Performance" |}.

Definition validation_figure (d : DataFrame) : Figure :=
  {| figsize := Some (10, 6);
     axes := [ {| position := (1, 1, 1);
                  lines := [reference_curve d; actual_curve d];
                  boxes := None;
                  xlabel := "Array Size (n)"; ylabel := "Time (ns)";
                  title := "Theoretical vs Actual Performance" ++ nl
                           ++ "(Linear Complexity Validation)";
                  has_legend := true; has_grid := true;
                  xscale := Linear; yscale := Linear; xtick_rotation := 0 |} ];
     tight := false |}.

(** The mean of Time(ns) over the RANDOM records of size [n]. *)
Definition random_mean_at (n : Z) (d : DataFrame) : fval :=
  mean (map Time_ns
            (filter (fun r => is_type "RANDOM" r && (ArraySize r =? n)) (records d))).

(** A world whose current figure has current axes [a]. *)
Definition world_on (fs : list (string * File)) (o : list out) (fr : list DataFrame)
    (st pal : string) (sz : option (Z * Z)) (a : Axes) (rest : list Axes) (t : bool)
    (figs : list Figure) (ds : list Figure) : World :=
  {| files := fs; stdout := o; frames := fr;
     pyplot := {| style := st; palette := pal;
                  figures := {| figsize := sz; axes := a :: rest; tight := t |} :: figs |};
     displayed := ds |}.

(** What the script prints first. *)
Definition banner : list out :=
  [Text "Boyer-Moore Majority Vote Performance Analysis";
   Text (string_repeat "=" 50)].

(** The table after the run: the loaded rows and the derived column. *)
Definition final_frame (table : list BenchmarkRecord) : DataFrame :=
  set_TimePerElement (time_per_element (loaded table)) (loaded table).

Section Traces.
Context {S : Sqrt}.

(** What [generate_statistical_summary] prints for a table [d]. *)
Definition summary_output (d : DataFrame) : list out :=
  [ Text (nl ++ "=== STATISTICAL SUMMARY ===");
    TextInt "Total benchmark runs: " (len d);
    TextInts "Array sizes tested: " (sorted (unique (col ArraySize d)));
    Text (nl ++ "Average Time by Array Size:");
    FrameByInt ["mean"; "std"; "min"; "max"]%string (round_frame (time_by_size d));
    Text (nl ++ "Average Time by Input Distribution:");
    FrameByStr ["mean"; "std"]%string (round_frame (time_by_dist d));
    Text (nl ++ "Complexity Analysis (Time vs Size correlation):");
    TextNum "Correlation coefficient: " (fround 4 (correlation d));
    Text (nl ++ "Efficiency Metrics:");
    Text "Average time per element (ns):";
    SeriesByInt
      (round_series (efficiency (set_TimePerElement (time_per_element d) d))) ].

End Traces.

End Drawing.

(** ** Sample inputs *)

(** A stand-in for seaborn's drawing, used to run the model: one line
    per box, from its least to its greatest value. *)
Definition sample_box_artists : BoxArtists :=
  fun groups =>
    map (fun g => {| xdata := [0; 0]; ydata := [min_ (snd g); max_ (snd g)];
                     fmt := ""; label := fst g |}) groups.

(** RANDOM records whose sizes do not appear in increasing order. *)
Definition unsorted_random_table : list BenchmarkRecord :=
  [ row 1000 "RANDOM" true 50000 999 1000;
    row 100 "RANDOM" false 7000 99 100 ].

(** A table with three distributions, a zero size and no row of size
    10000. *)
Definition sample_table : list BenchmarkRecord :=
  [ row 100 "SORTED" true 6000 99 100;
    row 1000 "SORTED" false 52000 999 1000;
    row 100 "WORST_CASE" true 9000 99 100;
    row 0 "SORTED" false 5 0 0;
    row 100 "SORTED" true 6400 99 100 ].


(** A file system holding the input file only. *)
Definition sample_files : list (string * File) :=
  [(csv_file, CsvFile sample_table)].

(** A world holding one table object and nothing else. *)
Definition world_with (table : list BenchmarkRecord) : World :=
  {| files := []; stdout := [];
     frames := [{| records := table; TimePerElement := None |}];
     pyplot := {| style := "default"; palette := "deep"; figures := [] |};
     displayed := [] |}.

(** ** Observations on the charts and on the console *)

(** The mean of [value] over the records that pass [mask] and have
    ArraySize [n]. *)
Definition mean_at (value : BenchmarkRecord -> Q) (mask : BenchmarkRecord -> bool)
    (n : Z) (d : DataFrame) : fval :=
  mean (map value (filter (fun r => mask r && (ArraySize r =? n)) (records d))).

(** The distinct ArraySize values of the records that pass [mask], in
    increasing order. *)
Definition sizes_of (mask : BenchmarkRecord -> bool) (d : DataFrame) : list Z :=
  sorted (unique (map ArraySize (filter mask (records d)))).

Definition has_majority (b : bool) (r : BenchmarkRecord) : bool :=
  Bool.eqb (HasMajority r) b.


(** What [load_and_analyze_data] prints for an existing input file. *)
Definition loader_output (table : list BenchmarkRecord) : list out :=
  [ Text "Data loaded successfully:";
    TextInt "Total records: " (len (loaded table));
    TextInts "Array sizes: " (unique (col ArraySize (loaded table)));
    TextStrs "Distributions: " (unique (col InputType (loaded table))) ].

(** The last line the script prints after a complete run. *)
Definition closing_line : out :=
  Text (nl ++ "Plots saved as 'performance_analysis.png' and 'theory_vs_practice.png'").

(** A table with rows of size 10000, whose RANDOM sizes first appear in
    increasing order. *)
Definition sample_table_fixed : list BenchmarkRecord :=
  [ row 100 "RANDOM" true 7000 99 100;
    row 10000 "RANDOM" true 900000 9999 10000;
    row 10000 "SORTED" false 800000 9999 10000;
    row 10000 "RANDOM" false 910000 9999 10000;
    row 100 "RANDOM" false 7400 99 100 ].

Definition sample_files_fixed : list (string * File) :=
  [(csv_file, CsvFile sample_table_fixed)].

(** A table whose records all have the same size. *)
Definition sample_table_single_size : list BenchmarkRecord :=
  [ row 100 "RANDOM" true 7000 99 100;
    row 100 "SORTED" false 6000 99 100;
    row 100 "RANDOM" false 7400 99 100 ].

(** A file system whose input file has a header and no row. *)
Definition sample_files_empty : list (string * File) :=
  [(csv_file, CsvFile [])].

(* ================================================================= *)
(** * Properties *)

(** ** Laws of the group keys *)

#[export] Instance KeyLaws_Z : KeyLaws Z.
Proof.
  split; simpl.
  - intros a b. apply Z.eqb_eq.
  - intros a b. rewrite !Z.leb_le. lia.
  - intros a b. rewrite !Z.leb_le. lia.
  - intros a b c. rewrite !Z.leb_le. lia.
Qed.

Lemma string_leb_trans (a b c : string) :
  String.leb a b = true -> String.leb b c = true -> String.leb a c = true.
Proof.
  unfold String.leb. intros Hab Hbc.
  destruct (String.compare a b) eqn:Eab; try discriminate;
    destruct (String.compare b c) eqn:Ebc; try discriminate.
  - apply String.compare_eq_iff in Eab. subst. now rewrite Ebc.
  - apply String.compare_eq_iff in Eab. subst. now rewrite Ebc.
  - apply String.compare_eq_iff in Ebc. subst. now rewrite Eab.
  - apply String_as_OT.cmp_lt in Eab, Ebc.
    pose proof (String_as_OT.lt_trans _ _ _ Eab Ebc) as Hac.
    apply String_as_OT.cmp_lt in Hac. unfold String_as_OT.cmp in Hac.
    now rewrite Hac.
Qed.

#[export] Instance KeyLaws_string : KeyLaws string.
Proof.
  split; simpl.
  - intros a b. apply String.eqb_eq.
  - apply String.leb_total.
  - apply String.leb_antisym.
  - apply string_leb_trans.
Qed.

(** ** Folding a permuted list *)



Lemma combine_map_same {A B C : Type} (f : A -> B) (g : A -> C) (l : list A) :
  combine (map f l) (map g l) = map (fun a => (f a, g a)) l.
Proof. induction l; simpl; congruence. Qed.

(** ** [unique], [sorted] and [groupby] *)

Section SeriesFacts.
Context {K : Type} `{KeyLaws K}.

Lemma keqb_refl (a : K) : keqb a a = true.
Proof. now apply keqb_eq. Qed.

Lemma in_unique (x : K) (l : list K) : In x (unique l) <-> In x l.
Proof.
  induction l as [|a l IH]; simpl; [tauto|].
  rewrite filter_In, IH.
  destruct (keqb a x) eqn:E; simpl.
  - apply keqb_eq in E. subst. tauto.
  - assert (a <> x) by (intros ->; now rewrite keqb_refl in E). tauto.
Qed.

Lemma NoDup_unique (l : list K) : NoDup (unique l).
Proof.
  induction l as [|a l IH]; simpl; constructor.
  - rewrite filter_In. intros [_ Hn]. now rewrite keqb_refl in Hn.
  - now apply NoDup_filter.
Qed.


Lemma kleb_false (a b : K) : kleb a b = false -> kleb b a = true.
Proof. destruct (kleb_total a b); congruence. Qed.



Lemma insert_sorted_perm (a : K) (l : list K) :
  Permutation (insert_sorted a l) (a :: l).
Proof.
  induction l as [|x l IH]; simpl; auto.
  destruct (kleb a x); auto.
  eapply perm_trans; [apply perm_skip, IH | apply perm_swap].
Qed.

Lemma sorted_perm (l : list K) : Permutation (sorted l) l.
Proof.
  induction l as [|a l IH]; simpl; auto.
  eapply perm_trans; [apply insert_sorted_perm | now apply perm_skip].
Qed.

Lemma in_sorted (x : K) (l : list K) : In x (sorted l) <-> In x l.
Proof.
  split; apply Permutation_in;
    [apply sorted_perm | apply Permutation_sym, sorted_perm].
Qed.

Lemma length_sorted (l : list K) : List.length (sorted l) = List.length l.
Proof. apply Permutation_length, sorted_perm. Qed.

Lemma insert_sorted_Sorted (a : K) (l : list K) :
  Sorted (fun x y => kleb x y = true) l ->
  Sorted (fun x y => kleb x y = true) (insert_sorted a l).
Proof.
  induction 1 as [|x l Hs IH Hhd]; simpl.
  - repeat constructor.
  - destruct (kleb a x) eqn:E.
    + repeat constructor; auto.
    + constructor; auto.
      apply kleb_false in E.
      destruct l as [|y l]; simpl; [now constructor|].
      inversion Hhd; subst.
      destruct (kleb a y); now constructor.
Qed.

Lemma sorted_Sorted (l : list K) :
  Sorted (fun x y => kleb x y = true) (sorted l).
Proof.
  induction l; simpl; [constructor | now apply insert_sorted_Sorted].
Qed.



Lemma length_agg_groupby {V R : Type} (f : list V -> R) (kv : list (K * V)) :
  List.length (agg f (groupby kv)) = List.length (unique (map fst kv)).
Proof.
  unfold agg, groupby. now rewrite !length_map, length_sorted.
Qed.

End SeriesFacts.

(** ** Exact arithmetic in lowest terms *)

Lemma qdiv_correct (a b : Q) : qdiv a b == a / b.
Proof. apply Qred_correct. Qed.











(** ** The aggregates do not depend on the row order *)





Section AggregateFacts.
Context {S : Sqrt}.



Lemma qmul_comm (a b : Q) : qmul a b = qmul b a.
Proof. unfold qmul. apply Qred_complete. ring. Qed.

Lemma combine_swap {A B : Type} (xs : list A) (ys : list B) :
  combine ys xs = map (fun p => (snd p, fst p)) (combine xs ys).
Proof.
  revert ys. induction xs as [|x xs IH]; intros [|y ys]; simpl; try reflexivity.
  now rewrite IH.
Qed.

(** Pearson's coefficient does not depend on the order of its two
    arguments. *)
Lemma pearson_sym (xs ys : list Q) : pearson xs ys = pearson ys xs.
Proof.
  unfold pearson. rewrite (combine_swap xs ys).
  generalize (combine xs ys) as l. intros l.
  assert (Hlen : lenQ (map (fun p : Q * Q => (snd p, fst p)) l) = lenQ l)
    by (unfold lenQ; now rewrite length_map).
  rewrite Hlen, !map_map. simpl.
  destruct l as [|p l]; [reflexivity|].
  set (l1 := p :: l). unfold l1 at 1. simpl map at 1.
  cbv iota zeta.
  rewrite (qmul_comm (sumQ (map (fun p => sq_dev _ (snd p)) l1))).
  rewrite (map_ext (fun x : Q * Q => qmul (qsub (snd x) _) (qsub (fst x) _))
                   (fun x : Q * Q => qmul (qsub (fst x) _) (qsub (snd x) _)))
    by (intros; apply qmul_comm).
  reflexivity.
Qed.

End AggregateFacts.

(** ** Running the summarizer *)

Lemma nth_error_list_set {A : Type} (n : nat) (a x : A) (l : list A) :
  nth_error l n = Some x -> nth_error (list_set n a l) n = Some a.
Proof.
  revert n. induction l as [|y l IH]; intros [|n]; simpl; try discriminate; auto.
Qed.

Section SummaryFacts.
Context {S : Sqrt}.

Lemma summary_run (w : World) (df : ref) (d : DataFrame) :
  frame_at w df = Some d ->
  generate_statistical_summary df w =
    Ok tt {| files := files w;
             stdout := stdout w ++ summary_output d;
             frames := list_set df (set_TimePerElement (time_per_element d) d)
                                (frames w);
             pyplot := pyplot w;
             displayed := displayed w |}.
Proof.
  intros Hd. destruct w as [fs o fr p ds]. unfold frame_at in Hd. simpl in Hd.
  unfold generate_statistical_summary, bind, print, get_frame, update_frame,
    frame_at.
  simpl. repeat (rewrite Hd; simpl).
  rewrite (nth_error_list_set _ _ _ _ Hd). simpl.
  unfold summary_output. rewrite <- !app_assoc. reflexivity.
Qed.

End SummaryFacts.

(** ** Sorted distinct integer keys *)

Lemma Sorted_weaken {A : Type} (R R' : A -> A -> Prop) (l : list A) :
  (forall x y, R x y -> R' x y) -> Sorted R l -> Sorted R' l.
Proof.
  intros HR. induction 1 as [|a l Hs IH Hhd]; constructor; auto.
  destruct Hhd; constructor; auto.
Qed.

Lemma sorted_unique_Z_increasing (l : list Z) :
  StronglySorted Z.lt (sorted (unique l)).
Proof.
  assert (Hs : StronglySorted Z.le (sorted (unique l))).
  { apply Sorted_StronglySorted.
    - intros x y z. lia.
    - apply Sorted_weaken with (R := fun x y : Z => kleb x y = true).
      + intros x y. simpl. apply Z.leb_le.
      + apply sorted_Sorted. }
  assert (Hn : NoDup (sorted (unique l))).
  { eapply Permutation_NoDup; [apply Permutation_sym, sorted_perm|].
    apply NoDup_unique. }
  induction Hs as [|a l0 Hs IH Hall]; constructor.
  - apply IH. now inversion Hn.
  - inversion Hn as [|? ? Hnotin _]; subst.
    rewrite Forall_forall in *. intros x Hx.
    specialize (Hall x Hx).
    assert (a <> x) by (intros ->; contradiction). lia.
Qed.

Lemma in_col {A : Type} (f : BenchmarkRecord -> A) (d : DataFrame) (a : A) :
  In a (col f d) <-> exists r, In r (records d) /\ f r = a.
Proof.
  unfold col. rewrite in_map_iff. split; intros [r [H1 H2]]; exists r; auto.
Qed.

Section SummaryClaims.
Context {S : Sqrt}.

(** ** C7 *)

(** C7: the summarizer prints, after its heading, a record count equal
    to the number of rows of the table, followed by the distinct
    ArraySize values in strictly increasing order. *)
Theorem C7_summary_prints_count_then_sorted_sizes
    (w : World) (df : ref) (d : DataFrame) :
  frame_at w df = Some d ->
  exists (w' : World) (sizes : list Z) (rest : list out),
    generate_statistical_summary df w = Ok tt w' /\
    stdout w' =
      stdout w ++
        Text (nl ++ "=== STATISTICAL SUMMARY ===")
        :: TextInt "Total benchmark runs: " (Z.of_nat (List.length (records d)))
        :: TextInts "Array sizes tested: " sizes
        :: rest /\
    StronglySorted Z.lt sizes /\
    (forall n, In n sizes <-> exists r, In r (records d) /\ ArraySize r = n).
Proof.
  intros Hd. rewrite (summary_run w df d Hd).
  eexists. exists (sorted (unique (col ArraySize d))). eexists.
  split; [reflexivity|]. split; [reflexivity|]. split.
  - apply sorted_unique_Z_increasing.
  - intros n. now rewrite in_sorted, in_unique, in_col.
Qed.

(** ** C3 *)

Lemma nth_error_time_per_element (d : DataFrame) (i : nat) (r : BenchmarkRecord) :
  nth_error (records d) i = Some r ->
  nth_error (time_per_element d) i
    = Some (true_divide (Time_ns r) (ArraySize r)).
Proof.
  intros Hr. unfold time_per_element. now rewrite nth_error_map, Hr.
Qed.


(** ** C8 *)

(** C8: the coefficient the summarizer reads at position [0,1] of the
    correlation matrix of (ArraySize, Time(ns)) equals the one at
    position [1,0], and equals the coefficient of (Time(ns), ArraySize). *)
Theorem C8_correlation_symmetric (d : DataFrame) :
  let size := col (fun r => inject_Z (ArraySize r)) d in
  let time := col Time_of d in
  correlation d = pearson size time /\
  iloc (corr [size; time]) 0 1 = iloc (corr [size; time]) 1 0 /\
  iloc (corr [time; size]) 0 1 = correlation d /\
  pearson size time = pearson time size.
Proof.
  intros size time. unfold correlation, iloc, corr. simpl.
  fold size time. repeat split; auto using pearson_sym.
Qed.

End SummaryClaims.

(** ** C4 *)

Section OrderIndependence.
Context {S : Sqrt}.
Variables d d' : DataFrame.
Hypothesis Hperm : Permutation (records d) (records d').








End OrderIndependence.

Section OrderIndependenceClaim.
Context {S : Sqrt}.


End OrderIndependenceClaim.

(** ** Running the chart renderer *)

Section ChartFacts.
Context {BA : BoxArtists}.

Lemma same_length_map {A B C : Type} (f : A -> B) (g : A -> C) (l : list A) :
  same_length (map f l) (map g l) = true.
Proof. unfold same_length. rewrite !length_map. apply Nat.eqb_refl. Qed.

Lemma bind_Ok {A B : Type} (m : M A) (k : A -> M B) (w w' : World) (a : A) :
  m w = Ok a w' -> bind m k w = k a w'.
Proof. unfold bind. now intros ->. Qed.

Lemma bind_bind {A B C : Type} (m : M A) (f : A -> M B) (g : B -> M C) (w : World) :
  bind (bind m f) g w = bind m (fun a => bind (f a) g) w.
Proof. unfold bind. now destruct (m w). Qed.

Lemma get_frame_Ok (w : World) (df : ref) (d : DataFrame) :
  frame_at w df = Some d -> get_frame df w = Ok d w.
Proof. unfold get_frame. now intros ->. Qed.

Lemma for_on_axes {A : Type} (g : A -> Axes -> Axes) (body : A -> M unit)
    (fs : list (string * File)) (o : list out) (fr : list DataFrame)
    (st pal : string) (sz : option (Z * Z)) (rest : list Axes) (t : bool)
    (figs ds : list Figure) :
  (forall x a, body x (world_on fs o fr st pal sz a rest t figs ds)
               = Ok tt (world_on fs o fr st pal sz (g x a) rest t figs ds)) ->
  forall l a,
    for_ l body (world_on fs o fr st pal sz a rest t figs ds)
    = Ok tt (world_on fs o fr st pal sz (fold_left (fun a x => g x a) l a) rest t figs ds).
Proof.
  intros Hbody. induction l as [|x l IH]; intros a; simpl.
  - reflexivity.
  - unfold bind. rewrite Hbody. apply IH.
Qed.

Arguments with_pyplot _ _ /.
Arguments with_files _ _ /.
Arguments with_stdout _ _ /.
Arguments with_displayed _ _ /.
Arguments with_frames _ _ /.
Arguments on_figure _ _ /.
Arguments on_axes _ _ /.
Arguments gcf _ /.
Arguments gca _ /.
Arguments subplot_in _ _ /.
Arguments new_figure _ /.
Arguments new_axes _ /.
Arguments pos_eqb _ _ /.

Ltac norm := cbn -[for_ unique mean_by_size select len nl String.append bind fold_left].
Ltac step Hd :=
  rewrite ?bind_bind;
  first [ erewrite bind_Ok by (apply get_frame_Ok; exact Hd)
        | erewrite bind_Ok by reflexivity ];
  norm.


Lemma fold_loglog {A : Type} (mk : A -> Line2D) (l : list A) (a : Axes) :
  fold_left (fun a x => set_scales Log Log (add_line (mk x) a)) l a =
  {| position := position a; lines := lines a ++ map mk l; boxes := boxes a;
     xlabel := xlabel a; ylabel := ylabel a; title := title a;
     has_legend := has_legend a; has_grid := has_grid a;
     xscale := match l with [] => xscale a | _ => Log end;
     yscale := match l with [] => yscale a | _ => Log end;
     xtick_rotation := xtick_rotation a |}.
Proof.
  revert a. induction l as [|x l IH]; intros a; simpl.
  - destruct a; simpl. now rewrite app_nil_r.
  - rewrite IH. simpl. rewrite <- app_assoc. simpl. now destruct l.
Qed.

Lemma fold_plot_if {A : Type} (cond : A -> bool) (mk : A -> Line2D)
    (l : list A) (a : Axes) :
  fold_left (fun a x => if cond x then add_line (mk x) a else a) l a =
  {| position := position a;
     lines := lines a ++ flat_map (fun x => if cond x then [mk x] else []) l;
     boxes := boxes a;
     xlabel := xlabel a; ylabel := ylabel a; title := title a;
     has_legend := has_legend a; has_grid := has_grid a;
     xscale := xscale a; yscale := yscale a;
     xtick_rotation := xtick_rotation a |}.
Proof.
  revert a. induction l as [|x l IH]; intros a; simpl.
  - destruct a; simpl. now rewrite app_nil_r.
  - rewrite IH. destruct (cond x); simpl; [|reflexivity].
    now rewrite <- app_assoc.
Qed.

Lemma fold_plot {A : Type} (mk : A -> Line2D) (l : list A) (a : Axes) :
  fold_left (fun a x => add_line (mk x) a) l a =
  {| position := position a; lines := lines a ++ map mk l; boxes := boxes a;
     xlabel := xlabel a; ylabel := ylabel a; title := title a;
     has_legend := has_legend a; has_grid := has_grid a;
     xscale := xscale a; yscale := yscale a;
     xtick_rotation := xtick_rotation a |}.
Proof.
  revert a. induction l as [|x l IH]; intros a; simpl.
  - destruct a; simpl. now rewrite app_nil_r.
  - rewrite IH. simpl. now rewrite <- app_assoc.
Qed.

Ltac loop Hd g :=
  rewrite ?bind_bind;
  erewrite bind_Ok;
  [| apply (for_on_axes g); intros ? ?; unfold world_on;
     erewrite bind_Ok by (apply get_frame_Ok; exact Hd) ].

Lemma plots_run (w : World) (df : ref) (d : DataFrame) :
  frame_at w df = Some d ->
  create_performance_plots df w =
    Ok tt {| files := write_file "performance_analysis.png"
                        (ImageFile 300 (performance_figure d)) (files w);
             stdout := stdout w;
             frames := frames w;
             pyplot := {| style := "seaborn-v0_8"; palette := "husl"; figures := [] |};
             displayed := displayed w ++ rev (performance_figure d :: figures (pyplot w)) |}.
Proof.
  intros Hd. destruct w as [fs o fr [st pal figs] ds].
  unfold frame_at in Hd. simpl in Hd.
  unfold create_performance_plots.
  do 5 step Hd.
  loop Hd (fun ty a => set_scales Log Log (add_line (series Time_of (is_type ty) "o-" ty d) a)).
  2: { unfold plt_loglog. rewrite same_length_map. reflexivity. }
  rewrite fold_loglog. norm.
  do 6 step Hd.
  loop Hd (fun ty a => if len (select (is_type ty) d) >? 0
                       then add_line (series Comparisons_of (is_type ty) "o-" ty d) a
                       else a).
  2: { unfold is_type.
       destruct (len _ >? 0); [|reflexivity].
       unfold plt_plot. rewrite same_length_map. reflexivity. }
  rewrite fold_plot_if. norm.
  do 6 step Hd.
  loop Hd (fun b a => add_line (series ArrayAccess_of
                              (fun r => Bool.eqb (HasMajority r) b) "o-"
                              ("Has Majority: " ++ str_bool b) d) a).
  2: { unfold plt_plot. rewrite same_length_map. reflexivity. }
  rewrite fold_plot. norm.
  do 7 step Hd.
  unfold performance_figure, panelD.
  destruct (len (select (fun r => ArraySize r =? fixed_size) d) >? 0) eqn:E.
  - repeat step Hd. reflexivity.
  - repeat step Hd. reflexivity.
Qed.

(** ** Running the theoretical validator *)

Lemma length_unique_means (value : BenchmarkRecord -> Q) (d : DataFrame) :
  List.length (mean_by_size value d) = List.length (unique (col ArraySize d)).
Proof.
  unfold mean_by_size, groupby_col, col.
  rewrite length_agg_groupby. now rewrite map_map.
Qed.

Lemma validation_run (w : World) (df : ref) (d : DataFrame) :
  frame_at w df = Some d ->
  create_theoretical_validation df w =
    Ok tt {| files := write_file "theory_vs_practice.png"
                        (ImageFile 300 (validation_figure d)) (files w);
             stdout := stdout w;
             frames := frames w;
             pyplot := {| style := style (pyplot w); palette := palette (pyplot w);
                          figures := [] |};
             displayed := displayed w ++ rev (validation_figure d :: figures (pyplot w)) |}.
Proof.
  intros Hd. destruct w as [fs o fr [st pal figs] ds].
  unfold frame_at in Hd. simpl in Hd.
  unfold create_theoretical_validation.
  do 2 step Hd.
  unfold plt_plot, same_length.
  rewrite !length_map, length_unique_means, Nat.eqb_refl.
  repeat step Hd. reflexivity.
Qed.

(** ** Running the loader and the script *)

Lemma nth_error_snoc {A : Type} (l : list A) (a : A) :
  nth_error (l ++ [a]) (List.length l) = Some a.
Proof. induction l; simpl; auto. Qed.

Lemma list_set_snoc {A : Type} (l : list A) (a b : A) :
  list_set (List.length l) b (l ++ [a]) = l ++ [b].
Proof. induction l; simpl; congruence. Qed.

Lemma load_run_absent (w : World) :
  lookup_file csv_file (files w) = None ->
  load_and_analyze_data w =
    Ok None
       {| files := files w;
          stdout := stdout w
                    ++ [Text "Error: benchmark_results.csv not found. Run benchmarks first."];
          frames := frames w; pyplot := pyplot w; displayed := displayed w |}.
Proof.
  intros Hno. destruct w as [fs o fr p ds]. simpl in Hno.
  unfold load_and_analyze_data, bind, os_path_exists. simpl.
  rewrite Hno. reflexivity.
Qed.

Lemma load_run_present (w : World) (table : list BenchmarkRecord) :
  lookup_file csv_file (files w) = Some (CsvFile table) ->
  load_and_analyze_data w =
    Ok (Some (List.length (frames w)))
       {| files := files w;
          stdout := stdout w
                    ++ [Text "Data loaded successfully:";
                        TextInt "Total records: " (len (loaded table));
                        TextInts "Array sizes: " (unique (col ArraySize (loaded table)));
                        TextStrs "Distributions: " (unique (col InputType (loaded table)))];
          frames := frames w ++ [loaded table];
          pyplot := pyplot w; displayed := displayed w |}.
Proof.
  intros Hcsv. destruct w as [fs o fr p ds]. simpl in Hcsv.
  unfold load_and_analyze_data, bind, os_path_exists, pd_read_csv, print,
    get_frame, frame_at.
  simpl. repeat (rewrite Hcsv; simpl).
  repeat (rewrite nth_error_snoc; simpl).
  rewrite <- !app_assoc. reflexivity.
Qed.

Section ScriptFacts.
Context {S : Sqrt}.

Lemma main_run_absent (w : World) :
  lookup_file csv_file (files w) = None ->
  main w =
    Ok tt
       {| files := files w;
          stdout := stdout w ++ banner
                    ++ [Text "Error: benchmark_results.csv not found. Run benchmarks first."];
          frames := frames w; pyplot := pyplot w; displayed := displayed w |}.
Proof.
  intros Hno. destruct w as [fs o fr p ds]. simpl in Hno.
  unfold main.
  do 2 (erewrite bind_Ok by reflexivity; cbn [with_stdout files stdout frames pyplot displayed]).
  erewrite bind_Ok by (apply load_run_absent; exact Hno).
  cbn [files stdout frames pyplot displayed]. unfold ret, banner.
  rewrite <- !app_assoc. reflexivity.
Qed.

Lemma main_run_present (w : World) (table : list BenchmarkRecord) :
  lookup_file csv_file (files w) = Some (CsvFile table) ->
  exists w',
    main w = Ok tt w' /\
    frames w' = frames w ++ [final_frame table] /\
    files w' =
      write_file "theory_vs_practice.png"
        (ImageFile 300 (validation_figure (final_frame table)))
        (write_file "performance_analysis.png"
           (ImageFile 300 (performance_figure (final_frame table))) (files w)).
Proof.
  intros Hcsv. destruct w as [fs o fr p ds]. simpl in Hcsv.
  unfold main.
  do 2 (erewrite bind_Ok by reflexivity; cbn [with_stdout files stdout frames pyplot displayed]).
  erewrite bind_Ok by (apply load_run_present; exact Hcsv).
  cbn [files stdout frames pyplot displayed].
  erewrite bind_Ok
    by (apply summary_run with (d := loaded table); apply nth_error_snoc).
  cbn [files stdout frames pyplot displayed]. rewrite list_set_snoc.
  fold (final_frame table).
  erewrite bind_Ok
    by (apply plots_run with (d := final_frame table); apply nth_error_snoc).
  cbn [files stdout frames pyplot displayed].
  erewrite bind_Ok
    by (apply validation_run with (d := final_frame table); apply nth_error_snoc).
  cbn [files stdout frames pyplot displayed].
  eexists. split; [reflexivity|]. split; reflexivity.
Qed.

End ScriptFacts.

(** ** Files *)

Lemma lookup_write_same (name : string) (f : File) (fs : list (string * File)) :
  lookup_file name (write_file name f fs) = Some f.
Proof.
  unfold lookup_file, write_file. simpl. now rewrite String.eqb_refl.
Qed.

Lemma saved_after_write (name : string) (dpi : Z) (fig : Figure) (w : World)
    (fs : list (string * File)) :
  files w = write_file name (ImageFile dpi fig) fs ->
  saved_figure name w = Some fig.
Proof.
  intros Hf. unfold saved_figure. now rewrite Hf, lookup_write_same.
Qed.

(** ** C2 *)

Section MissingInput.
Context {S : Sqrt}.

(** C2: when [benchmark_results.csv] does not exist, the loader prints
    one message that contains the file name and returns the "no data"
    value without raising; the script then returns normally having
    printed only its banner and that message, and leaves the file
    system (hence both image files), the figures and the tables as
    they were. *)
Theorem C2_missing_input_prints_message_and_stops (w : World) :
  lookup_file csv_file (files w) = None ->
  exists (msg : string) (w1 w' : World),
    load_and_analyze_data w = Ok None w1 /\
    stdout w1 = stdout w ++ [Text msg] /\
    contains csv_file msg = true /\
    main w = Ok tt w' /\
    stdout w' = stdout w ++ banner ++ [Text msg] /\
    files w' = files w /\
    saved_figure "performance_analysis.png" w'
      = saved_figure "performance_analysis.png" w /\
    saved_figure "theory_vs_practice.png" w'
      = saved_figure "theory_vs_practice.png" w /\
    pyplot w' = pyplot w /\
    displayed w' = displayed w /\
    frames w' = frames w.
Proof.
  intros Hno.
  exists "Error: benchmark_results.csv not found. Run benchmarks first."%string.
  rewrite (load_run_absent w Hno), (main_run_absent w Hno).
  do 2 eexists. repeat split.
Qed.

End MissingInput.

(** ** C5 *)

Lemma len_select_pos (p : BenchmarkRecord -> bool) (d : DataFrame) :
  (len (select p d) >? 0) = existsb p (records d).
Proof.
  unfold len, select. simpl.
  induction (records d) as [|r l IH]; simpl; [reflexivity|].
  destruct (p r); simpl; [|exact IH].
  rewrite Z.gtb_ltb. apply Z.ltb_lt. lia.
Qed.

Lemma position_panelD (d : DataFrame) : position (panelD d) = (2, 2, 4).
Proof. unfold panelD. now destruct (len _ >? 0). Qed.

Lemma panelB_lines (d : DataFrame) :
  lines (panelB d) =
    map (fun ty => series Comparisons_of (is_type ty) "o-" ty d)
        (filter (fun ty => existsb (is_type ty) (records d))
                ["RANDOM"; "SORTED"; "WORST_CASE"]%string).
Proof.
  unfold panelB. cbn [lines flat_map filter map app].
  rewrite !len_select_pos.
  destruct (existsb (is_type "RANDOM") (records d)),
           (existsb (is_type "SORTED") (records d)),
           (existsb (is_type "WORST_CASE") (records d)); reflexivity.
Qed.

Lemma panelD_empty (d : DataFrame) :
  (forall r, In r (records d) -> ArraySize r <> fixed_size) ->
  panelD d = new_axes (2, 2, 4).
Proof.
  intros Hno. unfold panelD. rewrite len_select_pos.
  destruct (existsb _ (records d)) eqn:E; [|reflexivity].
  apply existsb_exists in E. destruct E as [r [Hin Heq]].
  apply Z.eqb_eq in Heq. now apply Hno in Hin.
Qed.

(** C5: the chart renderer returns normally for every table.  Panel B
    of the saved figure holds one series per InputType of RANDOM,
    SORTED, WORST_CASE that has records, in that order, so a type
    without records contributes none; and when no record has
    ArraySize = 10000, Panel D is an empty panel: no boxplot, no line,
    no labels. *)
Theorem C5_empty_subsets_are_skipped (w : World) (df : ref) (d : DataFrame) :
  frame_at w df = Some d ->
  exists (w' : World) (fig : Figure) (B D : Axes),
    create_performance_plots df w = Ok tt w' /\
    saved_figure "performance_analysis.png" w' = Some fig /\
    panel (2, 2, 2) fig = Some B /\
    panel (2, 2, 4) fig = Some D /\
    lines B =
      map (fun ty => series Comparisons_of (is_type ty) "o-" ty d)
          (filter (fun ty => existsb (is_type ty) (records d))
                  ["RANDOM"; "SORTED"; "WORST_CASE"]%string) /\
    (forall ty, (forall r, In r (records d) -> InputType r <> ty) ->
                forall l, In l (lines B) -> label l <> ty) /\
    ((forall r, In r (records d) -> ArraySize r <> 10000) ->
     D = new_axes (2, 2, 4) /\ boxes D = None /\ lines D = []).
Proof.
  intros Hd. rewrite (plots_run w df d Hd).
  exists {| files := write_file "performance_analysis.png"
                       (ImageFile 300 (performance_figure d)) (files w);
            stdout := stdout w; frames := frames w;
            pyplot := {| style := "seaborn-v0_8"; palette := "husl"; figures := [] |};
            displayed := displayed w ++ rev (performance_figure d :: figures (pyplot w)) |}.
  exists (performance_figure d), (panelB d), (panelD d).
  split; [reflexivity|].
  split; [now apply saved_after_write with (dpi := 300) (fs := files w)|].
  split; [unfold panel, performance_figure; cbn [axes find];
          now rewrite position_panelD|].
  split; [unfold panel, performance_figure; cbn [axes find];
          now rewrite position_panelD|].
  split; [apply panelB_lines|].
  split.
  - intros ty Habsent l Hl. rewrite panelB_lines in Hl.
    apply in_map_iff in Hl. destruct Hl as [ty' [<- Hty']]. simpl.
    apply filter_In in Hty'. destruct Hty' as [_ Hex].
    apply existsb_exists in Hex. destruct Hex as [r [Hin Hr]].
    unfold is_type in Hr. apply String.eqb_eq in Hr.
    intros ->. now apply (Habsent r Hin).
  - intros Hno. rewrite (panelD_empty d Hno). now repeat split.
Qed.

(** ** The two curves of the validator *)

Lemma group_of_random (n : Z) (rows : list BenchmarkRecord) :
  group_of n (map (fun r => (ArraySize r, Time_of r))
                  (filter (is_type "RANDOM") rows)) =
  map Time_ns (filter (fun r => is_type "RANDOM" r && (ArraySize r =? n)) rows).
Proof.
  unfold group_of. induction rows as [|r rows IH]; simpl in *; [reflexivity|].
  destruct (is_type "RANDOM" r); simpl in *; [|exact IH].
  destruct (ArraySize r =? n); simpl in *; now rewrite IH.
Qed.

Lemma combine_self_map {A B : Type} (f : A -> B) (l : list A) :
  combine l (map f l) = map (fun a => (a, f a)) l.
Proof. induction l; simpl; congruence. Qed.


(** The values of the actual curve are the means per size, listed by
    increasing size; its abscissas are the sizes in order of first
    appearance. *)
Lemma actual_curve_values (d : DataFrame) :
  xdata (actual_curve d) = unique (col ArraySize (random_subset d)) /\
  ydata (actual_curve d) =
    map (fun n => random_mean_at n d)
        (sorted (unique (col ArraySize (random_subset d)))).
Proof.
  split; [reflexivity|].
  unfold actual_curve, mean_by_size, groupby_col, agg, groupby, random_subset,
    col, random_mean_at.
  simpl. rewrite !map_map. simpl. apply map_ext. intros n.
  now rewrite group_of_random.
Qed.

(** When the sizes of the RANDOM records first appear in increasing
    order, every point of the actual curve carries the mean of its own
    size. *)
Lemma actual_curve_points_when_increasing (d : DataFrame) :
  sorted (unique (col ArraySize (random_subset d)))
    = unique (col ArraySize (random_subset d)) ->
  points (actual_curve d) =
    map (fun n => (n, random_mean_at n d))
        (unique (col ArraySize (random_subset d))).
Proof.
  intros Hinc. unfold points.
  destruct (actual_curve_values d) as [-> ->]. rewrite Hinc.
  apply combine_self_map.
Qed.

(** ** C1 *)

(** C1 fails on the code: on the table [unsorted_random_table], whose
    RANDOM records have size 1000 before size 100, the validator draws
    the reference curve through (1000, 100000) and (100, 10000), but
    draws the actual curve through (1000, 7000) and (100, 50000),
    although the mean Time(ns) is 50000 at size 1000 and 7000 at size
    100: every actual point carries the mean of the other size. *)
Theorem C1_actual_curve_pairs_means_with_other_sizes :
  exists (w' : World) (fig : Figure) (ax : Axes),
    create_theoretical_validation 0%nat (world_with unsorted_random_table) = Ok tt w' /\
    saved_figure "theory_vs_practice.png" w' = Some fig /\
    axes fig = [ax] /\
    map points (lines ax) =
      [ [(1000, Fin (inject_Z 100000)); (100, Fin (inject_Z 10000))];
        [(1000, Fin (inject_Z 7000)); (100, Fin (inject_Z 50000))] ] /\
    random_mean_at 1000 (loaded unsorted_random_table) = Fin (inject_Z 50000) /\
    random_mean_at 100 (loaded unsorted_random_table) = Fin (inject_Z 7000).
Proof.
  rewrite (validation_run (world_with unsorted_random_table) 0%nat
             (loaded unsorted_random_table) eq_refl).
  do 3 eexists.
  split; [reflexivity|].
  split; [now apply saved_after_write with (dpi := 300) (fs := [])|].
  split; [reflexivity|].
  repeat split; vm_compute; reflexivity.
Qed.

(** ** C10 *)

Lemma filter_none {A : Type} (p : A -> bool) (l : list A) :
  (forall a, In a l -> p a = false) -> filter p l = [].
Proof.
  induction l as [|a l IH]; simpl; intros Hp; [reflexivity|].
  rewrite (Hp a) by now left. apply IH. intros b Hb. apply Hp. now right.
Qed.

(** C10: when no record has InputType RANDOM, the validator returns
    normally, both curves have no point at all, and
    [theory_vs_practice.png] is written with the figure holding these
    two empty curves. *)
Theorem C10_validator_without_random_records
    (w : World) (df : ref) (d : DataFrame) :
  frame_at w df = Some d ->
  (forall r, In r (records d) -> InputType r <> "RANDOM"%string) ->
  exists (w' : World) (fig : Figure) (ax : Axes) (reference actual : Line2D),
    create_theoretical_validation df w = Ok tt w' /\
    lookup_file "theory_vs_practice.png" (files w') = Some (ImageFile 300 fig) /\
    axes fig = [ax] /\
    lines ax = [reference; actual] /\
    xdata reference = [] /\ ydata reference = [] /\
    xdata actual = [] /\ ydata actual = [] /\
    points reference = [] /\ points actual = [].
Proof.
  intros Hd Hno. rewrite (validation_run w df d Hd).
  assert (Hnil : filter (is_type "RANDOM") (records d) = []).
  { apply filter_none. intros r Hr. unfold is_type.
    apply String.eqb_neq. now apply Hno. }
  do 2 eexists. exists (gca (validation_figure d)).
  exists (reference_curve d), (actual_curve d).
  split; [reflexivity|].
  split; [cbn [files]; apply lookup_write_same|].
  split; [reflexivity|]. split; [reflexivity|].
  unfold points, reference_curve, actual_curve, mean_by_size, groupby_col,
    random_subset, col, select.
  cbn [records xdata ydata]. rewrite Hnil. now repeat split.
Qed.

(** ** C6 *)

Lemma nth_error_list_set_other {A : Type} (n m : nat) (a : A) (l : list A) :
  n <> m -> nth_error (list_set n a l) m = nth_error l m.
Proof.
  revert n m. induction l as [|y l IH]; intros [|n] [|m] Hne; simpl;
    try reflexivity; try congruence.
  apply IH. congruence.
Qed.

Section FrameClaim.
Context {S : Sqrt}.

(** C6: a run on an existing input file ends with the table the
    loader created holding the loaded rows unchanged, in the same
    order, and one more column, TimePerElement; no other table exists
    or changes.  The loader creates the table with the six CSV
    columns only; the summarizer changes nothing but that column of
    that table; the chart renderer and the validator leave every
    table as it is. *)
Theorem C6_table_only_gains_the_derived_column
    (w : World) (table : list BenchmarkRecord) :
  lookup_file csv_file (files w) = Some (CsvFile table) ->
  (exists (w1 : World) (df : ref),
     load_and_analyze_data w = Ok (Some df) w1 /\
     frame_at w1 df = Some (loaded table) /\
     columns (loaded table) =
       ["ArraySize"; "InputType"; "HasMajority"; "Time(ns)"; "Comparisons";
        "ArrayAccess"]%string) /\
  (exists (w' : World) (final : DataFrame),
     main w = Ok tt w' /\
     frames w' = frames w ++ [final] /\
     records final = table /\
     TimePerElement final = Some (time_per_element (loaded table)) /\
     columns final =
       ["ArraySize"; "InputType"; "HasMajority"; "Time(ns)"; "Comparisons";
        "ArrayAccess"; "TimePerElement"]%string) /\
  (forall (u : World) (df : ref) (d : DataFrame),
     frame_at u df = Some d ->
     (exists u',
        generate_statistical_summary df u = Ok tt u' /\
        frame_at u' df =
          Some {| records := records d;
                  TimePerElement := Some (time_per_element d) |} /\
        forall r, r <> df -> frame_at u' r = frame_at u r) /\
     (exists u',
        create_performance_plots df u = Ok tt u' /\ frames u' = frames u) /\
     (exists u',
        create_theoretical_validation df u = Ok tt u' /\ frames u' = frames u)).
Proof.
  intros Hcsv. split; [|split].
  - rewrite (load_run_present w table Hcsv). do 2 eexists.
    split; [reflexivity|]. split; [|reflexivity].
    unfold frame_at. cbn [frames]. apply nth_error_snoc.
  - destruct (main_run_present w table Hcsv) as [w' [Hrun [Hfr _]]].
    exists w', (final_frame table). now repeat split.
  - intros u df d Hd. split; [|split].
    + rewrite (summary_run u df d Hd). eexists.
      split; [reflexivity|]. unfold frame_at in *. cbn [frames]. split.
      * now apply nth_error_list_set with (x := d).
      * intros r Hr. now apply nth_error_list_set_other.
    + rewrite (plots_run u df d Hd). eexists. split; reflexivity.
    + rewrite (validation_run u df d Hd). eexists. split; reflexivity.
Qed.

End FrameClaim.

(** ** C9 *)

Lemma true_divide_zero (t : Q) :
  is_finite (true_divide t 0) = false /\
  ((0 < t)%Q -> true_divide t 0 = PInf) /\
  ((t == 0)%Q -> true_divide t 0 = NaN).
Proof.
  unfold true_divide. simpl.
  destruct (Qcompare t 0) eqn:E; (split; [reflexivity|]); split;
    intros Ht; try reflexivity.
  - rewrite <- Qeq_alt in E. rewrite E in Ht. now apply Qlt_irrefl in Ht.
  - rewrite <- Qlt_alt in E. exfalso. eapply Qlt_irrefl, Qlt_trans; eauto.
  - rewrite <- Qlt_alt in E. rewrite Ht in E. now apply Qlt_irrefl in E.
  - rewrite <- Qgt_alt in E. rewrite Ht in E. now apply Qlt_irrefl in E.
Qed.

Lemma true_divide_nonzero (t : Q) (n : Z) :
  n <> 0 ->
  exists q, true_divide t n = Fin q /\ (q == t / inject_Z n)%Q.
Proof.
  intros Hn. unfold true_divide. destruct (n =? 0) eqn:E; [lia|].
  eexists. split; [reflexivity|]. apply qdiv_correct.
Qed.

Section ZeroSizeClaim.
Context {S : Sqrt}.

(** C9: when the input table has a row with ArraySize = 0 the whole run
    still returns normally, nothing is raised.  In the TimePerElement
    column the cell of every row with ArraySize = 0 is not a finite
    number (plus infinity when the time is positive, NaN when the time
    is zero), and the cell of every row with a non-zero ArraySize is
    t / n. *)
Theorem C9_zero_size_gives_non_finite_cell
    (w : World) (table : list BenchmarkRecord) :
  lookup_file csv_file (files w) = Some (CsvFile table) ->
  (exists r0, In r0 table /\ ArraySize r0 = 0) ->
  exists (w' : World) (c : list fval),
    main w = Ok tt w' /\
    frames w' = frames w ++ [{| records := table; TimePerElement := Some c |}] /\
    List.length c = List.length table /\
    forall i r, nth_error table i = Some r ->
      exists v, nth_error c i = Some v /\
        (ArraySize r = 0 ->
           is_finite v = false /\
           ((0 < Time_ns r)%Q -> v = PInf) /\
           ((Time_ns r == 0)%Q -> v = NaN)) /\
        (ArraySize r <> 0 ->
           exists q, v = Fin q /\ (q == Time_ns r / inject_Z (ArraySize r))%Q).
Proof.
  intros Hcsv _.
  destruct (main_run_present w table Hcsv) as [w' [Hrun [Hfr _]]].
  exists w', (time_per_element (loaded table)).
  split; [exact Hrun|]. split; [exact Hfr|]. split.
  - unfold time_per_element. apply length_map.
  - intros i r Hr.
    rewrite (nth_error_time_per_element (loaded table) i r Hr).
    eexists. split; [reflexivity|]. split.
    + intros ->. apply true_divide_zero.
    + apply true_divide_nonzero.
Qed.

End ZeroSizeClaim.

(* ================================================================= *)
(** * Further properties of the script *)

(** ** The points of a series *)

Lemma combine_fst_snd {A B : Type} (l : list (A * B)) :
  combine (map fst l) (map snd l) = l.
Proof. induction l as [|[a b] l IH]; simpl; congruence. Qed.

Lemma group_of_masked (value : BenchmarkRecord -> Q) (mask : BenchmarkRecord -> bool)
    (n : Z) (rows : list BenchmarkRecord) :
  group_of n (map (fun r => (ArraySize r, value r)) (filter mask rows)) =
  map value (filter (fun r => mask r && (ArraySize r =? n)) rows).
Proof.
  unfold group_of. induction rows as [|r rows IH]; simpl in *; [reflexivity|].
  destruct (mask r); simpl in *; [|exact IH].
  destruct (ArraySize r =? n); simpl in *; now rewrite IH.
Qed.

Lemma mean_by_size_rows (value : BenchmarkRecord -> Q) (mask : BenchmarkRecord -> bool)
    (d : DataFrame) :
  mean_by_size value (select mask d) =
    map (fun n => (n, mean_at value mask n d)) (sizes_of mask d).
Proof.
  unfold mean_by_size, groupby_col, agg, groupby, sizes_of, mean_at, select.
  cbn [records]. rewrite !map_map. cbn [fst snd]. apply map_ext. intros n.
  now rewrite group_of_masked.
Qed.

(** Every series pairs each of its sizes with the mean over the records
    of that size; the sizes are the distinct ones, increasing. *)
Lemma series_points (value : BenchmarkRecord -> Q) (mask : BenchmarkRecord -> bool)
    (f lbl : string) (d : DataFrame) :
  points (series value mask f lbl d) =
    map (fun n => (n, mean_at value mask n d)) (sizes_of mask d) /\
  xdata (series value mask f lbl d) = sizes_of mask d /\
  StronglySorted Z.lt (xdata (series value mask f lbl d)).
Proof.
  unfold points, series. cbn [xdata ydata].
  rewrite combine_fst_snd, mean_by_size_rows, map_map. cbn [fst].
  rewrite map_id. repeat split. apply sorted_unique_Z_increasing.
Qed.

Lemma sizes_of_nonempty (mask : BenchmarkRecord -> bool) (d : DataFrame)
    (r : BenchmarkRecord) :
  In r (records d) -> mask r = true -> sizes_of mask d <> [].
Proof.
  intros Hin Hm Hnil.
  assert (Hs : In (ArraySize r) (sizes_of mask d)).
  { unfold sizes_of. rewrite in_sorted, in_unique. apply in_map.
    apply filter_In. now split. }
  rewrite Hnil in Hs. contradiction.
Qed.

Lemma sizes_of_empty (mask : BenchmarkRecord -> bool) (d : DataFrame) :
  (forall r, In r (records d) -> mask r = false) -> sizes_of mask d = [].
Proof.
  intros Hno. unfold sizes_of. now rewrite (filter_none mask (records d) Hno).
Qed.

(** ** Panel A *)

Lemma panel_of_performance_figure (d : DataFrame) :
  panel (2, 2, 1) (performance_figure d) = Some (panelA d) /\
  panel (2, 2, 2) (performance_figure d) = Some (panelB d) /\
  panel (2, 2, 3) (performance_figure d) = Some (panelC d) /\
  panel (2, 2, 4) (performance_figure d) = Some (panelD d).
Proof.
  unfold panel, performance_figure. cbn [axes find].
  rewrite position_panelD. repeat split.
Qed.

Lemma plots_saved (w : World) (df : ref) (d : DataFrame) :
  frame_at w df = Some d ->
  exists w',
    create_performance_plots df w = Ok tt w' /\
    saved_figure "performance_analysis.png" w' = Some (performance_figure d).
Proof.
  intros Hd. rewrite (plots_run w df d Hd). eexists. split; [reflexivity|].
  now apply saved_after_write with (dpi := 300) (fs := files w).
Qed.

(** X2: Panel A of the saved figure has one series per distinct InputType,
    in order of first appearance and labelled with it.  Each series has
    at least one point, its sizes are strictly increasing, and each
    point pairs a size with the mean Time(ns) of the records of that
    type and size.  Both axes are logarithmic unless the table is
    empty. *)
Theorem panelA_one_series_per_type (w : World) (df : ref) (d : DataFrame) :
  frame_at w df = Some d ->
  exists (w' : World) (fig : Figure) (A : Axes),
    create_performance_plots df w = Ok tt w' /\
    saved_figure "performance_analysis.png" w' = Some fig /\
    panel (2, 2, 1) fig = Some A /\
    map label (lines A) = unique (col InputType d) /\
    (forall l, In l (lines A) ->
       points l = map (fun n => (n, mean_at Time_of (is_type (label l)) n d))
                      (sizes_of (is_type (label l)) d) /\
       points l <> [] /\
       StronglySorted Z.lt (xdata l)) /\
    (records d <> [] -> xscale A = Log /\ yscale A = Log) /\
    (records d = [] -> lines A = [] /\ xscale A = Linear /\ yscale A = Linear).
Proof.
  intros Hd. destruct (plots_saved w df d Hd) as [w' [Hrun Hsaved]].
  exists w', (performance_figure d), (panelA d).
  split; [exact Hrun|]. split; [exact Hsaved|].
  split; [apply panel_of_performance_figure|].
  unfold panelA. cbn [lines xscale yscale].
  split; [|split; [|split]].
  - rewrite map_map. cbn [label series]. apply map_id.
  - intros l Hl. apply in_map_iff in Hl. destruct Hl as [ty [<- Hty]].
    cbn [label series].
    destruct (series_points Time_of (is_type ty) "o-" ty d) as [Hp [_ Hs]].
    split; [exact Hp|]. split; [|exact Hs].
    rewrite Hp. apply (proj1 (in_unique _ _)) in Hty.
    apply (proj1 (in_col _ _ _)) in Hty.
    destruct Hty as [r [Hin Hr]].
    assert (Hne : sizes_of (is_type ty) d <> []).
    { apply (sizes_of_nonempty _ d r Hin). unfold is_type.
      now apply String.eqb_eq. }
    destruct (sizes_of (is_type ty) d); [contradiction|discriminate].
  - intros Hne. unfold col.
    destruct (records d) as [|r rows]; [contradiction|]. now cbn.
  - intros Hnil. unfold col. rewrite Hnil. now cbn.
Qed.

(** ** Panel B *)

(** X3: Panel B draws from a fixed list of three InputType values, not from
    the data: each series of the saved panel belongs to one of RANDOM,
    SORTED, WORST_CASE that has records, has at least one point, and
    pairs each size with the mean Comparisons of the records of that
    type and size; each of the three that has records is drawn; and an
    InputType outside the three is never drawn there, although Panel A
    draws it. *)
Theorem panelB_draws_only_the_three_fixed_types
    (w : World) (df : ref) (d : DataFrame) :
  frame_at w df = Some d ->
  exists (w' : World) (fig : Figure) (A B : Axes),
    create_performance_plots df w = Ok tt w' /\
    saved_figure "performance_analysis.png" w' = Some fig /\
    panel (2, 2, 1) fig = Some A /\
    panel (2, 2, 2) fig = Some B /\
    (forall l, In l (lines B) ->
       In (label l) ["RANDOM"; "SORTED"; "WORST_CASE"]%string /\
       (exists r, In r (records d) /\ InputType r = label l) /\
       points l = map (fun n => (n, mean_at Comparisons_of (is_type (label l)) n d))
                      (sizes_of (is_type (label l)) d) /\
       points l <> []) /\
    (forall ty, In ty ["RANDOM"; "SORTED"; "WORST_CASE"]%string ->
       (exists r, In r (records d) /\ InputType r = ty) ->
       exists l, In l (lines B) /\ label l = ty) /\
    (forall r, In r (records d) ->
       ~ In (InputType r) ["RANDOM"; "SORTED"; "WORST_CASE"]%string ->
       (exists l, In l (lines A) /\ label l = InputType r) /\
       (forall l, In l (lines B) -> label l <> InputType r)).
Proof.
  intros Hd. destruct (plots_saved w df d Hd) as [w' [Hrun Hsaved]].
  exists w', (performance_figure d), (panelA d), (panelB d).
  split; [exact Hrun|]. split; [exact Hsaved|].
  split; [apply panel_of_performance_figure|].
  split; [apply panel_of_performance_figure|].
  rewrite panelB_lines.
  assert (HB : forall l,
             In l (map (fun ty => series Comparisons_of (is_type ty) "o-" ty d)
                       (filter (fun ty => existsb (is_type ty) (records d))
                               ["RANDOM"; "SORTED"; "WORST_CASE"]%string)) ->
             In (label l) ["RANDOM"; "SORTED"; "WORST_CASE"]%string /\
             exists r, In r (records d) /\ InputType r = label l).
  { intros l Hl. apply in_map_iff in Hl. destruct Hl as [ty [<- Hty]].
    cbn [label series]. apply filter_In in Hty. destruct Hty as [Hfix Hex].
    split; [exact Hfix|]. apply existsb_exists in Hex.
    destruct Hex as [r [Hin Hr]]. exists r. split; [exact Hin|].
    unfold is_type in Hr. now apply String.eqb_eq. }
  split; [|split].
  - intros l Hl. destruct (HB l Hl) as [Hfix [r [Hin Hr]]].
    split; [exact Hfix|]. split; [now exists r|].
    apply in_map_iff in Hl. destruct Hl as [ty [<- _]]. cbn [label series] in *.
    destruct (series_points Comparisons_of (is_type ty) "o-" ty d) as [Hp _].
    split; [exact Hp|]. rewrite Hp.
    assert (Hne : sizes_of (is_type ty) d <> []).
    { apply (sizes_of_nonempty _ d r Hin). unfold is_type. now apply String.eqb_eq. }
    destruct (sizes_of (is_type ty) d); [contradiction|discriminate].
  - intros ty Hfix [r [Hin Hr]].
    exists (series Comparisons_of (is_type ty) "o-" ty d). split; [|reflexivity].
    apply (in_map (fun ty => series Comparisons_of (is_type ty) "o-" ty d)).
    apply filter_In. split; [exact Hfix|].
    apply existsb_exists. exists r. split; [exact Hin|].
    unfold is_type. now apply String.eqb_eq.
  - intros r Hin Hout. split.
    + exists (series Time_of (is_type (InputType r)) "o-" (InputType r) d).
      split; [|reflexivity]. unfold panelA. cbn [lines].
      apply (in_map (fun ty => series Time_of (is_type ty) "o-" ty d)).
      apply in_unique. unfold col. now apply in_map.
    + intros l Hl Heq. destruct (HB l Hl) as [Hfix _]. apply Hout.
      now rewrite <- Heq.
Qed.

(** ** Panel C *)

(** X4: Panel C of the saved figure always has exactly two series, labelled
    "Has Majority: True" and "Has Majority: False" in this order; each
    pairs a size with the mean ArrayAccess of the records of that
    HasMajority value and size.  A value without records is not
    skipped: its series is drawn with no point. *)
Theorem panelC_always_two_series (w : World) (df : ref) (d : DataFrame) :
  frame_at w df = Some d ->
  exists (w' : World) (fig : Figure) (C : Axes) (yes no : Line2D),
    create_performance_plots df w = Ok tt w' /\
    saved_figure "performance_analysis.png" w' = Some fig /\
    panel (2, 2, 3) fig = Some C /\
    lines C = [yes; no] /\
    label yes = "Has Majority: True"%string /\
    label no = "Has Majority: False"%string /\
    points yes = map (fun n => (n, mean_at ArrayAccess_of (has_majority true) n d))
                     (sizes_of (has_majority true) d) /\
    points no = map (fun n => (n, mean_at ArrayAccess_of (has_majority false) n d))
                    (sizes_of (has_majority false) d) /\
    ((forall r, In r (records d) -> HasMajority r = false) -> points yes = []) /\
    ((forall r, In r (records d) -> HasMajority r = true) -> points no = []).
Proof.
  intros Hd. destruct (plots_saved w df d Hd) as [w' [Hrun Hsaved]].
  exists w', (performance_figure d), (panelC d).
  exists (series ArrayAccess_of (has_majority true) "o-" "Has Majority: True" d),
         (series ArrayAccess_of (has_majority false) "o-" "Has Majority: False" d).
  split; [exact Hrun|]. split; [exact Hsaved|].
  split; [apply panel_of_performance_figure|].
  split; [reflexivity|]. split; [reflexivity|]. split; [reflexivity|].
  destruct (series_points ArrayAccess_of (has_majority true) "o-"
              "Has Majority: True" d) as [Hy _].
  destruct (series_points ArrayAccess_of (has_majority false) "o-"
              "Has Majority: False" d) as [Hn _].
  split; [exact Hy|]. split; [exact Hn|]. split.
  - intros Hall. rewrite Hy, sizes_of_empty; [reflexivity|].
    intros r Hr. unfold has_majority. now rewrite (Hall r Hr).
  - intros Hall. rewrite Hn, sizes_of_empty; [reflexivity|].
    intros r Hr. unfold has_majority. now rewrite (Hall r Hr).
Qed.

(** ** Groups partition the rows *)


Section GroupFacts.
Context {K : Type} `{KeyLaws K}.

Lemma group_of_cons {V : Type} (k k0 : K) (v : V) (kv : list (K * V)) :
  group_of k ((k0, v) :: kv) =
    if keqb k0 k then v :: group_of k kv else group_of k kv.
Proof. unfold group_of. cbn [filter fst]. now destruct (keqb k0 k). Qed.


Lemma in_key_group_nonempty {V : Type} (k : K) (kv : list (K * V)) :
  In k (map fst kv) -> group_of k kv <> [].
Proof.
  induction kv as [|[k0 v] kv IH]; [now intros []|].
  rewrite group_of_cons. intros [Hk|Hk].
  - cbn in Hk. subst. now rewrite keqb_refl.
  - destruct (keqb k0 k); [discriminate|now apply IH].
Qed.




End GroupFacts.

(** ** Panel D *)




(** ** The validator on any table *)

Lemma validation_saved (w : World) (df : ref) (d : DataFrame) :
  frame_at w df = Some d ->
  exists w',
    create_theoretical_validation df w = Ok tt w' /\
    saved_figure "theory_vs_practice.png" w' = Some (validation_figure d).
Proof.
  intros Hd. rewrite (validation_run w df d Hd). eexists. split; [reflexivity|].
  now apply saved_after_write with (dpi := 300) (fs := files w).
Qed.




Lemma sorted_increasing_id (l : list Z) : StronglySorted Z.lt l -> sorted l = l.
Proof.
  induction 1 as [|a l Hs IH Hall]; [reflexivity|].
  cbn [sorted fold_right]. fold (sorted l). rewrite IH.
  destruct l as [|x l]; [reflexivity|]. cbn [insert_sorted].
  inversion Hall as [|? ? Hax _]; subst.
  assert (E : kleb a x = true) by (cbn; apply Z.leb_le; lia).
  now rewrite E.
Qed.

(** X7: When the distinct sizes of the RANDOM records first appear in
    increasing order, every point of the actual curve pairs a size with
    the mean Time(ns) of the RANDOM records of that size. *)
Theorem validator_actual_curve_right_for_increasing_sizes
    (w : World) (df : ref) (d : DataFrame) :
  frame_at w df = Some d ->
  StronglySorted Z.lt (unique (map ArraySize (filter (is_type "RANDOM") (records d)))) ->
  exists (w' : World) (fig : Figure) (ax : Axes) (reference actual : Line2D),
    create_theoretical_validation df w = Ok tt w' /\
    saved_figure "theory_vs_practice.png" w' = Some fig /\
    axes fig = [ax] /\
    lines ax = [reference; actual] /\
    points actual =
      map (fun n => (n, random_mean_at n d))
          (unique (map ArraySize (filter (is_type "RANDOM") (records d)))).
Proof.
  intros Hd Hinc. destruct (validation_saved w df d Hd) as [w' [Hrun Hsaved]].
  exists w', (validation_figure d), (gca (validation_figure d)).
  exists (reference_curve d), (actual_curve d).
  split; [exact Hrun|]. split; [exact Hsaved|].
  split; [reflexivity|]. split; [reflexivity|].
  apply actual_curve_points_when_increasing.
  now apply sorted_increasing_id.
Qed.

(** ** What each step leaves alone *)

Lemma lookup_write_other (name other : string) (f : File) (fs : list (string * File)) :
  other <> name ->
  lookup_file other (write_file name f fs) = lookup_file other fs.
Proof.
  intros Hne. unfold lookup_file, write_file. cbn [find fst].
  assert (E : String.eqb name other = false)
    by (apply String.eqb_neq; congruence).
  rewrite E. f_equal.
  induction fs as [|[a x] fs IH]; [reflexivity|]. cbn [filter find fst].
  destruct (String.eqb a name) eqn:Ea; cbn [negb].
  - apply String.eqb_eq in Ea. subst a. now rewrite E.
  - cbn [find fst]. now destruct (String.eqb a other).
Qed.

Section StepFrames.
Context {S : Sqrt}.

(** X8: The summarizer only prints and assigns the column: it changes no
    file and no figure.  The chart renderer and the validator print
    nothing, and each changes exactly one file, its own image; every
    other file, the input file included, is as before. *)
Theorem steps_change_only_their_own_outputs
    (w : World) (df : ref) (d : DataFrame) :
  frame_at w df = Some d ->
  (exists w',
     generate_statistical_summary df w = Ok tt w' /\
     files w' = files w /\ pyplot w' = pyplot w /\ displayed w' = displayed w) /\
  (exists w',
     create_performance_plots df w = Ok tt w' /\
     stdout w' = stdout w /\
     forall name, name <> "performance_analysis.png"%string ->
       lookup_file name (files w') = lookup_file name (files w)) /\
  (exists w',
     create_theoretical_validation df w = Ok tt w' /\
     stdout w' = stdout w /\
     forall name, name <> "theory_vs_practice.png"%string ->
       lookup_file name (files w') = lookup_file name (files w)).
Proof.
  intros Hd. split; [|split].
  - rewrite (summary_run w df d Hd). eexists. now repeat split.
  - rewrite (plots_run w df d Hd). eexists.
    split; [reflexivity|]. split; [reflexivity|].
    intros name Hne. cbn [files]. now apply lookup_write_other.
  - rewrite (validation_run w df d Hd). eexists.
    split; [reflexivity|]. split; [reflexivity|].
    intros name Hne. cbn [files]. now apply lookup_write_other.
Qed.

End StepFrames.

(** ** The loader on an existing file *)

Lemma filter_split_inv {A : Type} (p : A -> bool) (u s t : list A) (a : A) :
  filter p u = s ++ a :: t ->
  exists u1 u2, u = u1 ++ a :: u2 /\ filter p u1 = s /\ filter p u2 = t.
Proof.
  revert s. induction u as [|x u IH]; intros s Hf; cbn [filter] in Hf.
  - now destruct s.
  - destruct (p x) eqn:E.
    + destruct s as [|y s]; cbn [app] in Hf; injection Hf as Hx Hrest.
      * subst a. exists [], u. now repeat split.
      * subst y. destruct (IH s Hrest) as [u1 [u2 [Hu [H2 H3]]]].
        exists (x :: u1), u2. cbn [filter app]. rewrite E, H2, Hu. now repeat split.
    + destruct (IH s Hf) as [u1 [u2 [Hu [H2 H3]]]].
      exists (x :: u1), u2. cbn [filter app]. rewrite E, H2, Hu. now repeat split.
Qed.

Section FirstAppearance.
Context {K : Type} `{KeyLaws K}.

(** [unique] lists the values by first appearance: a value listed before
    another one occurs in the column before any occurrence of the
    other. *)
Lemma unique_order (l s1 s2 s3 : list K) (a b : K) :
  unique l = s1 ++ a :: s2 ++ b :: s3 ->
  exists p1 p2, l = p1 ++ a :: p2 /\ ~ In a p1 /\ ~ In b p1.
Proof.
  revert s1 s2 s3. induction l as [|x r IH]; intros s1 s2 s3 Hu; cbn [unique] in Hu.
  - now destruct s1.
  - destruct s1 as [|y s1]; cbn [app] in Hu; injection Hu as Hx Hrest.
    + subst a. exists [], r. repeat split; auto.
    + subst y.
      assert (Ha : In a (filter (fun y => negb (keqb x y)) (unique r)))
        by (rewrite Hrest; apply in_or_app; right; now left).
      assert (Hb : In b (filter (fun y => negb (keqb x y)) (unique r))).
      { rewrite Hrest. apply in_or_app. right. right.
        apply in_or_app. right. now left. }
      apply filter_In in Ha. destruct Ha as [_ Ha].
      apply filter_In in Hb. destruct Hb as [_ Hb].
      apply filter_split_inv in Hrest.
      destruct Hrest as [u1 [u2 [Hu1 [_ Hf2]]]].
      apply filter_split_inv in Hf2. destruct Hf2 as [v1 [v2 [Hu2 _]]].
      subst u2.
      destruct (IH u1 v1 v2 Hu1) as [p1 [p2 [Hl [Hna Hnb]]]].
      exists (x :: p1), p2. split; [now rewrite Hl|]. split.
      * intros [Heq|Hin]; [|contradiction].
        subst a. now rewrite keqb_refl in Ha.
      * intros [Heq|Hin]; [|contradiction].
        subst b. now rewrite keqb_refl in Hb.
Qed.

End FirstAppearance.

(** X1: When the input file exists, the loader creates one new table
    holding the rows of the file, returns it, and prints the number of
    rows, then the distinct ArraySize values and the distinct InputType
    values, each without repetition and in order of first appearance: a
    value printed before another one occurs in its column before every
    occurrence of the other.  It changes no file and no other table. *)
Theorem loader_returns_table_and_prints_inventory
    (w : World) (table : list BenchmarkRecord) :
  lookup_file csv_file (files w) = Some (CsvFile table) ->
  exists (w' : World) (df : ref) (sizes : list Z) (types : list string),
    load_and_analyze_data w = Ok (Some df) w' /\
    frame_at w' df = Some (loaded table) /\
    frames w' = frames w ++ [loaded table] /\
    files w' = files w /\
    stdout w' =
      stdout w ++
        [ Text "Data loaded successfully:";
          TextInt "Total records: " (Z.of_nat (List.length table));
          TextInts "Array sizes: " sizes;
          TextStrs "Distributions: " types ] /\
    NoDup sizes /\
    (forall n, In n sizes <-> exists r, In r table /\ ArraySize r = n) /\
    (forall a b s1 s2 s3, sizes = s1 ++ a :: s2 ++ b :: s3 ->
       exists p1 p2, map ArraySize table = p1 ++ a :: p2 /\
                     ~ In a p1 /\ ~ In b p1) /\
    NoDup types /\
    (forall ty, In ty types <-> exists r, In r table /\ InputType r = ty) /\
    (forall a b s1 s2 s3, types = s1 ++ a :: s2 ++ b :: s3 ->
       exists p1 p2, map InputType table = p1 ++ a :: p2 /\
                     ~ In a p1 /\ ~ In b p1) /\
    hd_error sizes = option_map ArraySize (hd_error table) /\
    hd_error types = option_map InputType (hd_error table).
Proof.
  intros Hcsv. rewrite (load_run_present w table Hcsv).
  eexists. exists (List.length (frames w)).
  exists (unique (col ArraySize (loaded table))),
         (unique (col InputType (loaded table))).
  split; [reflexivity|].
  split; [unfold frame_at; cbn [frames]; apply nth_error_snoc|].
  do 3 (split; [reflexivity|]).
  split; [apply NoDup_unique|].
  split; [intros n; rewrite in_unique; apply (in_col ArraySize (loaded table))|].
  split; [intros a b s1 s2 s3; apply unique_order|].
  split; [apply NoDup_unique|].
  split; [intros ty; rewrite in_unique; apply (in_col InputType (loaded table))|].
  split; [intros a b s1 s2 s3; apply unique_order|].
  unfold col, loaded. cbn [records]. now destruct table.
Qed.

(** ** A complete run *)

Section CompleteRun.
Context {S : Sqrt}.

Lemma main_run_full (w : World) (table : list BenchmarkRecord) :
  lookup_file csv_file (files w) = Some (CsvFile table) ->
  main w =
    Ok tt
       {| files :=
            write_file "theory_vs_practice.png"
              (ImageFile 300 (validation_figure (final_frame table)))
              (write_file "performance_analysis.png"
                 (ImageFile 300 (performance_figure (final_frame table))) (files w));
          stdout := stdout w ++ banner ++ loader_output table
                    ++ summary_output (loaded table) ++ [closing_line];
          frames := frames w ++ [final_frame table];
          pyplot := {| style := "seaborn-v0_8"; palette := "husl"; figures := [] |};
          displayed :=
            (displayed w
             ++ rev (performance_figure (final_frame table) :: figures (pyplot w)))
            ++ [validation_figure (final_frame table)] |}.
Proof.
  intros Hcsv. destruct w as [fs o fr p ds]. simpl in Hcsv.
  unfold main.
  do 2 (erewrite bind_Ok by reflexivity; cbn [with_stdout files stdout frames pyplot displayed]).
  erewrite bind_Ok by (apply load_run_present; exact Hcsv).
  cbn [files stdout frames pyplot displayed].
  erewrite bind_Ok
    by (apply summary_run with (d := loaded table); apply nth_error_snoc).
  cbn [files stdout frames pyplot displayed]. rewrite list_set_snoc.
  fold (final_frame table).
  erewrite bind_Ok
    by (apply plots_run with (d := final_frame table); apply nth_error_snoc).
  cbn [files stdout frames pyplot displayed].
  erewrite bind_Ok
    by (apply validation_run with (d := final_frame table); apply nth_error_snoc).
  cbn [files stdout frames pyplot displayed figures style palette].
  unfold print, closing_line, banner, loader_output.
  cbn [with_stdout files stdout frames pyplot displayed].
  rewrite <- !app_assoc. reflexivity.
Qed.

(** The charts are drawn from the six CSV columns only: the derived
    column does not change them. *)
Lemma figures_ignore_derived_column (table : list BenchmarkRecord) :
  performance_figure (final_frame table) = performance_figure (loaded table) /\
  validation_figure (final_frame table) = validation_figure (loaded table).
Proof. split; reflexivity. Qed.

Lemma complete_run_facts (w : World) (table : list BenchmarkRecord) :
  lookup_file csv_file (files w) = Some (CsvFile table) ->
  exists w',
    main w = Ok tt w' /\
    stdout w' = stdout w ++ banner ++ loader_output table
                ++ summary_output (loaded table) ++ [closing_line] /\
    saved_figure "performance_analysis.png" w'
      = Some (performance_figure (loaded table)) /\
    saved_figure "theory_vs_practice.png" w'
      = Some (validation_figure (loaded table)) /\
    lookup_file csv_file (files w') = Some (CsvFile table) /\
    (forall name, name <> "performance_analysis.png"%string ->
                  name <> "theory_vs_practice.png"%string ->
                  lookup_file name (files w') = lookup_file name (files w)) /\
    List.length (frames w') = Datatypes.S (List.length (frames w)).
Proof.
  intros Hcsv. rewrite (main_run_full w table Hcsv). eexists.
  split; [reflexivity|]. split; [reflexivity|].
  cbn [files frames]. unfold saved_figure. cbn [files].
  split; [|split; [|split; [|split]]].
  - rewrite lookup_write_other by discriminate.
    now rewrite lookup_write_same.
  - now rewrite lookup_write_same.
  - rewrite !lookup_write_other by discriminate. exact Hcsv.
  - intros name H1 H2. now rewrite !lookup_write_other.
  - rewrite length_app. cbn. lia.
Qed.

(** X9: A run on an existing input file returns normally.  The console
    shows the banner, the loader's inventory, the summary and the
    closing line, in this order; both image files exist afterwards and
    hold the charts of the loaded table; the input file and every other
    file are as before; one table was created. *)
Theorem complete_run_writes_both_images_and_keeps_input
    (w : World) (table : list BenchmarkRecord) :
  lookup_file csv_file (files w) = Some (CsvFile table) ->
  exists w',
    main w = Ok tt w' /\
    stdout w' = stdout w ++ banner ++ loader_output table
                ++ summary_output (loaded table) ++ [closing_line] /\
    saved_figure "performance_analysis.png" w'
      = Some (performance_figure (loaded table)) /\
    saved_figure "theory_vs_practice.png" w'
      = Some (validation_figure (loaded table)) /\
    lookup_file csv_file (files w') = Some (CsvFile table) /\
    (forall name, name <> "performance_analysis.png"%string ->
                  name <> "theory_vs_practice.png"%string ->
                  lookup_file name (files w') = lookup_file name (files w)) /\
    List.length (frames w') = Datatypes.S (List.length (frames w)).
Proof. apply complete_run_facts. Qed.

(** X10: On an input file with a header and no row the run still returns
    normally: the counts are 0, the lists and the two tables of the
    summary are empty, the correlation coefficient is NaN, and in both
    saved images no panel has a boxplot and every curve is without
    points. *)
Theorem run_on_empty_table (w : World) :
  lookup_file csv_file (files w) = Some (CsvFile []) ->
  exists (w' : World) (perf theory : Figure),
    main w = Ok tt w' /\
    stdout w' =
      stdout w ++ banner ++
        [ Text "Data loaded successfully:";
          TextInt "Total records: " 0;
          TextInts "Array sizes: " [];
          TextStrs "Distributions: " [];
          Text (nl ++ "=== STATISTICAL SUMMARY ===");
          TextInt "Total benchmark runs: " 0;
          TextInts "Array sizes tested: " [];
          Text (nl ++ "Average Time by Array Size:");
          FrameByInt ["mean"; "std"; "min"; "max"]%string [];
          Text (nl ++ "Average Time by Input Distribution:");
          FrameByStr ["mean"; "std"]%string [];
          Text (nl ++ "Complexity Analysis (Time vs Size correlation):");
          TextNum "Correlation coefficient: " NaN;
          Text (nl ++ "Efficiency Metrics:");
          Text "Average time per element (ns):";
          SeriesByInt [];
          closing_line ] /\
    saved_figure "performance_analysis.png" w' = Some perf /\
    saved_figure "theory_vs_practice.png" w' = Some theory /\
    map position (axes perf) = [(2, 2, 4); (2, 2, 3); (2, 2, 2); (2, 2, 1)] /\
    (forall ax, In ax (axes perf ++ axes theory) ->
       boxes ax = None /\ forall l, In l (lines ax) -> points l = []).
Proof.
  intros Hcsv.
  destruct (complete_run_facts w [] Hcsv)
    as [w' [Hrun [Hout [Hperf [Hth _]]]]].
  exists w', (performance_figure (loaded [])), (validation_figure (loaded [])).
  split; [exact Hrun|]. split; [exact Hout|].
  split; [exact Hperf|]. split; [exact Hth|].
  split; [reflexivity|].
  intros ax Hax. cbn in Hax.
  repeat (destruct Hax as [<- | Hax];
          [split; [reflexivity|];
           intros l Hl; cbn in Hl;
           repeat (destruct Hl as [<- | Hl]; [reflexivity|]); contradiction|]).
  contradiction.
Qed.

End CompleteRun.

(** ** The summary tables *)

Lemma sumQ_cons (a : Q) (l : list Q) : (sumQ (a :: l) == a + sumQ l)%Q.
Proof. cbn [sumQ fold_right]. apply Qred_correct. Qed.

Lemma sumQ_scaled (c : Q) (l : list Q) :
  (sumQ (map (fun t => qdiv t c) l) == sumQ l / c)%Q.
Proof.
  induction l as [|a l IH].
  - cbn. unfold Qdiv. ring.
  - cbn [map]. rewrite !sumQ_cons, IH, qdiv_correct. unfold Qdiv. ring.
Qed.

Lemma sumF_fin (l : list Q) : sumF (map Fin l) = Fin (sumQ l).
Proof.
  induction l as [|a l IH]; [reflexivity|].
  cbn [map sumF fold_right] in *. fold (sumF (map Fin l)). now rewrite IH.
Qed.

Lemma mean_skipna_fin (l : list Q) :
  l <> [] -> mean_skipna (map Fin l) = Fin (qdiv (sumQ l) (lenQ l)).
Proof.
  intros Hne. unfold mean_skipna.
  assert (E : filter notna (map Fin l) = map Fin l).
  { clear. induction l as [|a l IH]; [reflexivity|]. cbn. now rewrite IH. }
  rewrite E, sumF_fin, length_map.
  destruct l; [contradiction|reflexivity].
Qed.

Lemma group_of_time_per_element (n : Z) (rows : list BenchmarkRecord) :
  group_of n (map (fun r => (ArraySize r, true_divide (Time_ns r) (ArraySize r))) rows) =
  map (fun t => true_divide t n)
      (group_of n (map (fun r => (ArraySize r, Time_of r)) rows)).
Proof.
  unfold group_of. induction rows as [|r rows IH]; simpl in *; [reflexivity|].
  destruct (ArraySize r =? n) eqn:E; simpl in *; [|exact IH].
  apply Z.eqb_eq in E. now rewrite IH, E.
Qed.

Lemma time_by_size_entries {S : Sqrt} (d : DataFrame) :
  time_by_size d =
    map (fun n =>
           let g := group_of n (map (fun r => (ArraySize r, Time_of r)) (records d)) in
           (n, [mean g; std g; min_ g; max_ g]))
        (sorted (unique (col ArraySize d))).
Proof.
  unfold time_by_size, groupby_col, agg, groupby, col.
  now rewrite !map_map.
Qed.

Lemma efficiency_entries (d : DataFrame) :
  efficiency (set_TimePerElement (time_per_element d) d) =
    map (fun n =>
           (n, mean_skipna
                 (map (fun t => true_divide t n)
                      (group_of n (map (fun r => (ArraySize r, Time_of r)) (records d))))))
        (sorted (unique (col ArraySize d))).
Proof.
  unfold efficiency, set_TimePerElement, time_per_element, col.
  cbn [TimePerElement records]. rewrite combine_map_same.
  unfold agg, groupby. rewrite !map_map. cbn [fst snd].
  apply map_ext. intros n. now rewrite group_of_time_per_element.
Qed.

Lemma size_group_nonempty (d : DataFrame) (n : Z) :
  In n (sorted (unique (col ArraySize d))) ->
  group_of n (map (fun r => (ArraySize r, Time_of r)) (records d)) <> [].
Proof.
  intros Hn. apply in_key_group_nonempty. rewrite map_map. cbn [fst].
  now apply in_unique, in_sorted.
Qed.

Section SummaryTables.
Context {S : Sqrt}.

(** X11: The per-size table of Time(ns) and the series of time per element
    have the same index, the distinct sizes in increasing order.  For
    every size n other than 0, the printed-from entry of the series is
    the mean of that size in the table divided by n. *)
Theorem efficiency_is_mean_time_over_size (d : DataFrame) :
  map fst (time_by_size d) = sorted (unique (col ArraySize d)) /\
  map fst (efficiency (set_TimePerElement (time_per_element d) d))
    = sorted (unique (col ArraySize d)) /\
  forall n, In n (sorted (unique (col ArraySize d))) -> n <> 0 ->
    exists (m : Q) (sd lo hi : fval),
      In (n, [Fin m; sd; lo; hi]) (time_by_size d) /\
      In (n, Fin (qdiv m (inject_Z n)))
         (efficiency (set_TimePerElement (time_per_element d) d)) /\
      (qdiv m (inject_Z n) == m / inject_Z n)%Q.
Proof.
  rewrite time_by_size_entries, efficiency_entries, !map_map. cbn [fst].
  rewrite !map_id. split; [reflexivity|]. split; [reflexivity|].
  intros n Hn Hnz.
  pose proof (size_group_nonempty d n Hn) as Hne.
  set (g := group_of n (map (fun r => (ArraySize r, Time_of r)) (records d))) in *.
  exists (qdiv (sumQ g) (lenQ g)), (std g), (min_ g), (max_ g).
  split; [|split; [|apply qdiv_correct]].
  - apply in_map_iff. exists n. split; [|exact Hn]. cbn zeta. fold g.
    unfold mean. destruct g; [contradiction|reflexivity].
  - apply in_map_iff. exists n. split; [|exact Hn]. fold g. f_equal.
    assert (E : map (fun t => true_divide t n) g
                = map Fin (map (fun t => qdiv t (inject_Z n)) g)).
    { rewrite map_map. apply map_ext. intros t. unfold true_divide.
      destruct (n =? 0) eqn:Ez; [lia|reflexivity]. }
    rewrite E, mean_skipna_fin by (destruct g; [contradiction|discriminate]).
    f_equal. unfold lenQ. rewrite length_map. fold (lenQ g).
    unfold qdiv at 1 3. apply Qred_complete.
    rewrite sumQ_scaled, qdiv_correct. unfold Qdiv. ring.
Qed.

Lemma list_set_twice {A : Type} (n : nat) (a b : A) (l : list A) :
  list_set n b (list_set n a l) = list_set n b l.
Proof.
  revert n. induction l as [|x l IH]; intros [|n]; cbn; try reflexivity.
  now rewrite IH.
Qed.

(** X12: Running the summarizer again, on the table that already has the
    derived column, raises nothing: it prints the same text once more
    and leaves the table as the first run left it. *)
Theorem summarizer_can_run_twice (w : World) (df : ref) (d : DataFrame) :
  frame_at w df = Some d ->
  exists (w1 w2 : World) (printed : list out),
    generate_statistical_summary df w = Ok tt w1 /\
    generate_statistical_summary df w1 = Ok tt w2 /\
    stdout w1 = stdout w ++ printed /\
    stdout w2 = stdout w1 ++ printed /\
    frames w2 = frames w1 /\
    frame_at w1 df = Some {| records := records d;
                             TimePerElement := Some (time_per_element d) |}.
Proof.
  intros Hd.
  assert (Hd1 : frame_at
                  {| files := files w; stdout := stdout w ++ summary_output d;
                     frames := list_set df (set_TimePerElement (time_per_element d) d)
                                        (frames w);
                     pyplot := pyplot w; displayed := displayed w |} df
                = Some (set_TimePerElement (time_per_element d) d)).
  { unfold frame_at in *. cbn [frames]. now apply nth_error_list_set with (x := d). }
  rewrite (summary_run w df d Hd).
  do 2 eexists. exists (summary_output d).
  split; [reflexivity|].
  rewrite (summary_run _ df _ Hd1).
  split; [reflexivity|]. split; [reflexivity|]. split; [reflexivity|].
  split; [|exact Hd1].
  cbn [frames]. apply list_set_twice.
Qed.

End SummaryTables.

(** ** The rows of the per-size table *)



Lemma lenQ_cons {A : Type} (a : A) (l : list A) : (lenQ (a :: l) == 1 + lenQ l)%Q.
Proof.
  unfold lenQ. cbn [List.length]. rewrite Nat2Z.inj_succ. unfold Z.succ.
  rewrite inject_Z_plus. ring.
Qed.

Lemma lenQ_pos {A : Type} (l : list A) : l <> [] -> (0 < lenQ l)%Q.
Proof.
  intros Hne. unfold lenQ. change 0%Q with (inject_Z 0). rewrite <- Zlt_Qlt.
  destruct l; [contradiction|]. cbn [List.length]. lia.
Qed.


Section PerSizeRows.
Context {S : Sqrt}.


End PerSizeRows.

(** ** The correlation coefficient without spread *)

Lemma sumQ_const (c : Q) (l : list Q) :
  (forall x, In x l -> (x == c)%Q) -> (sumQ l == c * lenQ l)%Q.
Proof.
  induction l as [|a l IH]; intros Hc.
  - change (0 == c * 0)%Q. ring.
  - rewrite sumQ_cons, lenQ_cons.
    rewrite IH by (intros x Hx; apply Hc; now right).
    rewrite (Hc a) by now left. ring.
Qed.

Lemma sumQ_zeros (l : list Q) : (forall x, In x l -> x = 0%Q) -> sumQ l = 0%Q.
Proof.
  induction l as [|a l IH]; intros Hz; [reflexivity|].
  cbn [sumQ fold_right]. fold (sumQ l).
  rewrite IH by (intros; apply Hz; now right).
  now rewrite (Hz a) by now left.
Qed.

Lemma sq_dev_zero (m x : Q) : (x == m)%Q -> sq_dev m x = 0%Q.
Proof.
  intros E. unfold sq_dev, qmul, qsub.
  change 0%Q with (Qred 0). apply Qred_complete.
  rewrite !Qred_correct, E. ring.
Qed.

Lemma qmul_zero_l (a : Q) : qmul 0 a = 0%Q.
Proof.
  unfold qmul. change 0%Q with (Qred 0) at 2. apply Qred_complete. ring.
Qed.

Section NoSpread.
Context {S : Sqrt}.

(** X14: When every record has the same ArraySize (and also when the table
    is empty) the correlation coefficient is NaN, for every square root
    that maps 0 to 0: nothing is raised, the summary prints NaN. *)
Theorem correlation_is_nan_for_a_single_size (d : DataFrame) (c : Z) :
  (sqrtQ 0 == 0)%Q ->
  (forall r, In r (records d) -> ArraySize r = c) ->
  correlation d = NaN /\ fround 4 (correlation d) = NaN.
Proof.
  intros Hsqrt Hall.
  assert (Hc : correlation d = NaN); [|now rewrite Hc].
  unfold correlation, iloc, corr, col. cbn [map nth].
  unfold pearson. rewrite combine_map_same.
  destruct (records d) as [|r0 rows] eqn:Erows; [reflexivity|].
  rewrite <- Erows in *.
  set (xy := map (fun a => (inject_Z (ArraySize a), Time_of a)) (records d)).
  assert (Hxy : xy <> []) by (unfold xy; rewrite Erows; discriminate).
  destruct xy as [|p xy'] eqn:Exy; [contradiction|]. rewrite <- Exy in *.
  cbv zeta.
  assert (Hfst : forall x, In x (map fst xy) -> (x == inject_Z c)%Q).
  { intros x Hx. unfold xy in Hx. rewrite map_map in Hx. cbn [fst] in Hx.
    apply in_map_iff in Hx. destruct Hx as [r [<- Hr]].
    now rewrite (Hall r Hr). }
  assert (Hmx : (qdiv (sumQ (map fst xy)) (lenQ xy) == inject_Z c)%Q).
  { rewrite qdiv_correct, (sumQ_const _ _ Hfst).
    unfold lenQ at 1. rewrite length_map. fold (lenQ xy).
    field. intros Hz. pose proof (lenQ_pos xy Hxy) as Hp.
    rewrite Hz in Hp. now apply Qlt_irrefl in Hp. }
  assert (Hsx : sumQ (map (fun p => sq_dev (qdiv (sumQ (map fst xy)) (lenQ xy)) (fst p)) xy)
                = 0%Q).
  { apply sumQ_zeros. intros x Hx. apply in_map_iff in Hx.
    destruct Hx as [q [<- Hq]]. apply sq_dev_zero.
    rewrite Hmx. apply Hfst. now apply in_map. }
  rewrite Hsx, qmul_zero_l.
  apply Qeq_bool_iff in Hsqrt. now rewrite Hsqrt.
Qed.

End NoSpread.

End ChartFacts.

(* ================================================================= *)
(** * The statements at sample inputs *)

(** The sample runs use the computable square root and the stand-in
    drawing of boxes. *)
#[local] Existing Instance sqrt_floor.
#[local] Existing Instance sample_box_artists.

Lemma C2_witness :
  lookup_file csv_file (files (initial_world [])) = None /\
  exists (msg : string) (w1 w' : World),
    load_and_analyze_data (initial_world []) = Ok None w1 /\
    stdout w1 = stdout (initial_world []) ++ [Text msg] /\
    contains csv_file msg = true /\
    main (S := sqrt_floor) (initial_world []) = Ok tt w' /\
    stdout w' = stdout (initial_world []) ++ banner ++ [Text msg] /\
    files w' = files (initial_world []) /\
    saved_figure "performance_analysis.png" w'
      = saved_figure "performance_analysis.png" (initial_world []) /\
    saved_figure "theory_vs_practice.png" w'
      = saved_figure "theory_vs_practice.png" (initial_world []) /\
    pyplot w' = pyplot (initial_world []) /\
    displayed w' = displayed (initial_world []) /\
    frames w' = frames (initial_world []).
Proof.
  split; [reflexivity|].
  apply (C2_missing_input_prints_message_and_stops (S := sqrt_floor) (initial_world [])).
  reflexivity.
Defined.




Lemma C5_witness :
  frame_at (world_with sample_table) 0%nat = Some (loaded sample_table) /\
  exists (w' : World) (fig : Figure) (B D : Axes),
    create_performance_plots 0%nat (world_with sample_table) = Ok tt w' /\
    saved_figure "performance_analysis.png" w' = Some fig /\
    panel (2, 2, 2) fig = Some B /\
    panel (2, 2, 4) fig = Some D /\
    lines B =
      map (fun ty => series Comparisons_of (is_type ty) "o-" ty (loaded sample_table))
          (filter (fun ty => existsb (is_type ty) (records (loaded sample_table)))
                  ["RANDOM"; "SORTED"; "WORST_CASE"]%string) /\
    (forall ty, (forall r, In r (records (loaded sample_table)) -> InputType r <> ty) ->
                forall l, In l (lines B) -> label l <> ty) /\
    ((forall r, In r (records (loaded sample_table)) -> ArraySize r <> 10000) ->
     D = new_axes (2, 2, 4) /\ boxes D = None /\ lines D = []).
Proof.
  split; [reflexivity|].
  apply (C5_empty_subsets_are_skipped (world_with sample_table) 0%nat
           (loaded sample_table)).
  reflexivity.
Defined.

Lemma C6_witness :
  lookup_file csv_file (files (initial_world sample_files))
    = Some (CsvFile sample_table) /\
  exists (w' : World) (final : DataFrame),
    main (S := sqrt_floor) (initial_world sample_files) = Ok tt w' /\
    frames w' = frames (initial_world sample_files) ++ [final] /\
    records final = sample_table /\
    TimePerElement final = Some (time_per_element (loaded sample_table)) /\
    columns final =
      ["ArraySize"; "InputType"; "HasMajority"; "Time(ns)"; "Comparisons";
       "ArrayAccess"; "TimePerElement"]%string.
Proof.
  split; [reflexivity|].
  apply (C6_table_only_gains_the_derived_column (S := sqrt_floor)
           (initial_world sample_files) sample_table).
  reflexivity.
Defined.

Lemma C7_witness :
  frame_at (world_with sample_table) 0%nat = Some (loaded sample_table) /\
  exists (w' : World) (sizes : list Z) (rest : list out),
    generate_statistical_summary (S := sqrt_floor) 0%nat (world_with sample_table) = Ok tt w' /\
    stdout w' =
      stdout (world_with sample_table) ++
        Text (nl ++ "=== STATISTICAL SUMMARY ===")
        :: TextInt "Total benchmark runs: "
             (Z.of_nat (List.length (records (loaded sample_table))))
        :: TextInts "Array sizes tested: " sizes
        :: rest /\
    StronglySorted Z.lt sizes /\
    (forall n, In n sizes <->
               exists r, In r (records (loaded sample_table)) /\ ArraySize r = n).
Proof.
  split; [reflexivity|].
  apply (C7_summary_prints_count_then_sorted_sizes (S := sqrt_floor)
           (world_with sample_table) 0%nat (loaded sample_table)).
  reflexivity.
Defined.

Lemma C9_witness :
  lookup_file csv_file (files (initial_world sample_files))
    = Some (CsvFile sample_table) /\
  (exists r0, In r0 sample_table /\ ArraySize r0 = 0) /\
  exists (w' : World) (c : list fval),
    main (S := sqrt_floor) (initial_world sample_files) = Ok tt w' /\
    frames w' = frames (initial_world sample_files)
                ++ [{| records := sample_table; TimePerElement := Some c |}] /\
    List.length c = List.length sample_table /\
    forall i r, nth_error sample_table i = Some r ->
      exists v, nth_error c i = Some v /\
        (ArraySize r = 0 ->
           is_finite v = false /\
           ((0 < Time_ns r)%Q -> v = PInf) /\
           ((Time_ns r == 0)%Q -> v = NaN)) /\
        (ArraySize r <> 0 ->
           exists q, v = Fin q /\ (q == Time_ns r / inject_Z (ArraySize r))%Q).
Proof.
  assert (Hzero : exists r0, In r0 sample_table /\ ArraySize r0 = 0).
  { exists (row 0 "SORTED" false 5 0 0). split; [|reflexivity].
    simpl. do 3 right. left. reflexivity. }
  split; [reflexivity|]. split; [exact Hzero|].
  apply (C9_zero_size_gives_non_finite_cell (S := sqrt_floor)
           (initial_world sample_files) sample_table).
  - reflexivity.
  - exact Hzero.
Defined.

Lemma sample_table_has_no_random :
  forall r, In r (records (loaded sample_table)) -> InputType r <> "RANDOM"%string.
Proof.
  intros r Hr. simpl in Hr.
  repeat (destruct Hr as [<- | Hr]; [discriminate|]). contradiction.
Defined.

Lemma C10_witness :
  frame_at (world_with sample_table) 0%nat = Some (loaded sample_table) /\
  (forall r, In r (records (loaded sample_table)) -> InputType r <> "RANDOM"%string) /\
  exists (w' : World) (fig : Figure) (ax : Axes) (reference actual : Line2D),
    create_theoretical_validation 0%nat (world_with sample_table) = Ok tt w' /\
    lookup_file "theory_vs_practice.png" (files w') = Some (ImageFile 300 fig) /\
    axes fig = [ax] /\
    lines ax = [reference; actual] /\
    xdata reference = [] /\ ydata reference = [] /\
    xdata actual = [] /\ ydata actual = [] /\
    points reference = [] /\ points actual = [].
Proof.
  split; [reflexivity|]. split; [exact sample_table_has_no_random|].
  apply (C10_validator_without_random_records (world_with sample_table) 0%nat
           (loaded sample_table)).
  - reflexivity.
  - exact sample_table_has_no_random.
Defined.

(* ================================================================= *)
(** * The further properties at sample inputs *)

Lemma loader_witness :
  lookup_file csv_file (files (initial_world sample_files)) = Some (CsvFile sample_table) /\
  exists (w' : World) (df : ref) (sizes : list Z) (types : list string),
    load_and_analyze_data (initial_world sample_files) = Ok (Some df) w' /\
    frame_at w' df = Some (loaded sample_table) /\
    frames w' = frames (initial_world sample_files) ++ [loaded sample_table] /\
    files w' = files (initial_world sample_files) /\
    stdout w' =
      stdout (initial_world sample_files) ++
        [ Text "Data loaded successfully:";
          TextInt "Total records: " (Z.of_nat (List.length sample_table));
          TextInts "Array sizes: " sizes;
          TextStrs "Distributions: " types ] /\
    NoDup sizes /\
    (forall n, In n sizes <-> exists r, In r sample_table /\ ArraySize r = n) /\
    (forall a b s1 s2 s3, sizes = s1 ++ a :: s2 ++ b :: s3 ->
       exists p1 p2, map ArraySize sample_table = p1 ++ a :: p2 /\
                     ~ In a p1 /\ ~ In b p1) /\
    NoDup types /\
    (forall ty, In ty types <-> exists r, In r sample_table /\ InputType r = ty) /\
    (forall a b s1 s2 s3, types = s1 ++ a :: s2 ++ b :: s3 ->
       exists p1 p2, map InputType sample_table = p1 ++ a :: p2 /\
                     ~ In a p1 /\ ~ In b p1) /\
    hd_error sizes = option_map ArraySize (hd_error sample_table) /\
    hd_error types = option_map InputType (hd_error sample_table).
Proof.
  split; [reflexivity|].
  apply (loader_returns_table_and_prints_inventory (initial_world sample_files)
           sample_table).
  reflexivity.
Defined.

Lemma panelA_witness :
  frame_at (world_with sample_table) 0%nat = Some (loaded sample_table) /\
  exists (w' : World) (fig : Figure) (A : Axes),
    create_performance_plots 0%nat (world_with sample_table) = Ok tt w' /\
    saved_figure "performance_analysis.png" w' = Some fig /\
    panel (2, 2, 1) fig = Some A /\
    map label (lines A) = unique (col InputType (loaded sample_table)) /\
    (forall l, In l (lines A) ->
       points l = map (fun n => (n, mean_at Time_of (is_type (label l)) n
                                            (loaded sample_table)))
                      (sizes_of (is_type (label l)) (loaded sample_table)) /\
       points l <> [] /\
       StronglySorted Z.lt (xdata l)) /\
    (records (loaded sample_table) <> [] -> xscale A = Log /\ yscale A = Log) /\
    (records (loaded sample_table) = [] ->
     lines A = [] /\ xscale A = Linear /\ yscale A = Linear).
Proof.
  split; [reflexivity|].
  apply (panelA_one_series_per_type (world_with sample_table) 0%nat
           (loaded sample_table)).
  reflexivity.
Defined.

Lemma panelB_witness :
  frame_at (world_with sample_table) 0%nat = Some (loaded sample_table) /\
  exists (w' : World) (fig : Figure) (A B : Axes),
    create_performance_plots 0%nat (world_with sample_table) = Ok tt w' /\
    saved_figure "performance_analysis.png" w' = Some fig /\
    panel (2, 2, 1) fig = Some A /\
    panel (2, 2, 2) fig = Some B /\
    (forall l, In l (lines B) ->
       In (label l) ["RANDOM"; "SORTED"; "WORST_CASE"]%string /\
       (exists r, In r (records (loaded sample_table)) /\ InputType r = label l) /\
       points l = map (fun n => (n, mean_at Comparisons_of (is_type (label l)) n
                                            (loaded sample_table)))
                      (sizes_of (is_type (label l)) (loaded sample_table)) /\
       points l <> []) /\
    (forall ty, In ty ["RANDOM"; "SORTED"; "WORST_CASE"]%string ->
       (exists r, In r (records (loaded sample_table)) /\ InputType r = ty) ->
       exists l, In l (lines B) /\ label l = ty) /\
    (forall r, In r (records (loaded sample_table)) ->
       ~ In (InputType r) ["RANDOM"; "SORTED"; "WORST_CASE"]%string ->
       (exists l, In l (lines A) /\ label l = InputType r) /\
       (forall l, In l (lines B) -> label l <> InputType r)).
Proof.
  split; [reflexivity|].
  apply (panelB_draws_only_the_three_fixed_types (world_with sample_table) 0%nat
           (loaded sample_table)).
  reflexivity.
Defined.

Lemma panelC_witness :
  frame_at (world_with sample_table) 0%nat = Some (loaded sample_table) /\
  exists (w' : World) (fig : Figure) (C : Axes) (yes no : Line2D),
    create_performance_plots 0%nat (world_with sample_table) = Ok tt w' /\
    saved_figure "performance_analysis.png" w' = Some fig /\
    panel (2, 2, 3) fig = Some C /\
    lines C = [yes; no] /\
    label yes = "Has Majority: True"%string /\
    label no = "Has Majority: False"%string /\
    points yes = map (fun n => (n, mean_at ArrayAccess_of (has_majority true) n
                                           (loaded sample_table)))
                     (sizes_of (has_majority true) (loaded sample_table)) /\
    points no = map (fun n => (n, mean_at ArrayAccess_of (has_majority false) n
                                          (loaded sample_table)))
                    (sizes_of (has_majority false) (loaded sample_table)) /\
    ((forall r, In r (records (loaded sample_table)) -> HasMajority r = false) ->
     points yes = []) /\
    ((forall r, In r (records (loaded sample_table)) -> HasMajority r = true) ->
     points no = []).
Proof.
  split; [reflexivity|].
  apply (panelC_always_two_series (world_with sample_table) 0%nat
           (loaded sample_table)).
  reflexivity.
Defined.




Lemma sample_table_fixed_sizes_increase :
  StronglySorted Z.lt
    (unique (map ArraySize (filter (is_type "RANDOM")
                              (records (loaded sample_table_fixed))))).
Proof.
  cbn. repeat constructor.
Defined.

Lemma validator_increasing_witness :
  frame_at (world_with sample_table_fixed) 0%nat = Some (loaded sample_table_fixed) /\
  StronglySorted Z.lt
    (unique (map ArraySize (filter (is_type "RANDOM")
                              (records (loaded sample_table_fixed))))) /\
  exists (w' : World) (fig : Figure) (ax : Axes) (reference actual : Line2D),
    create_theoretical_validation 0%nat (world_with sample_table_fixed) = Ok tt w' /\
    saved_figure "theory_vs_practice.png" w' = Some fig /\
    axes fig = [ax] /\
    lines ax = [reference; actual] /\
    points actual =
      map (fun n => (n, random_mean_at n (loaded sample_table_fixed)))
          (unique (map ArraySize (filter (is_type "RANDOM")
                                    (records (loaded sample_table_fixed))))).
Proof.
  split; [reflexivity|]. split; [exact sample_table_fixed_sizes_increase|].
  apply (validator_actual_curve_right_for_increasing_sizes
           (world_with sample_table_fixed) 0%nat (loaded sample_table_fixed)).
  - reflexivity.
  - exact sample_table_fixed_sizes_increase.
Defined.

Lemma steps_witness :
  frame_at (world_with sample_table) 0%nat = Some (loaded sample_table) /\
  (exists w',
     generate_statistical_summary 0%nat (world_with sample_table) = Ok tt w' /\
     files w' = files (world_with sample_table) /\
     pyplot w' = pyplot (world_with sample_table) /\
     displayed w' = displayed (world_with sample_table)) /\
  (exists w',
     create_performance_plots 0%nat (world_with sample_table) = Ok tt w' /\
     stdout w' = stdout (world_with sample_table) /\
     forall name, name <> "performance_analysis.png"%string ->
       lookup_file name (files w') = lookup_file name (files (world_with sample_table))) /\
  (exists w',
     create_theoretical_validation 0%nat (world_with sample_table) = Ok tt w' /\
     stdout w' = stdout (world_with sample_table) /\
     forall name, name <> "theory_vs_practice.png"%string ->
       lookup_file name (files w') = lookup_file name (files (world_with sample_table))).
Proof.
  split; [reflexivity|].
  apply (steps_change_only_their_own_outputs (world_with sample_table) 0%nat
           (loaded sample_table)).
  reflexivity.
Defined.

Lemma complete_run_witness :
  lookup_file csv_file (files (initial_world sample_files)) = Some (CsvFile sample_table) /\
  exists w',
    main (initial_world sample_files) = Ok tt w' /\
    stdout w' = stdout (initial_world sample_files) ++ banner
                ++ loader_output sample_table
                ++ summary_output (loaded sample_table) ++ [closing_line] /\
    saved_figure "performance_analysis.png" w'
      = Some (performance_figure (loaded sample_table)) /\
    saved_figure "theory_vs_practice.png" w'
      = Some (validation_figure (loaded sample_table)) /\
    lookup_file csv_file (files w') = Some (CsvFile sample_table) /\
    (forall name, name <> "performance_analysis.png"%string ->
                  name <> "theory_vs_practice.png"%string ->
                  lookup_file name (files w')
                    = lookup_file name (files (initial_world sample_files))) /\
    List.length (frames w')
      = Datatypes.S (List.length (frames (initial_world sample_files))).
Proof.
  split; [reflexivity|].
  apply (complete_run_writes_both_images_and_keeps_input
           (initial_world sample_files) sample_table).
  reflexivity.
Defined.

Lemma empty_table_witness :
  lookup_file csv_file (files (initial_world sample_files_empty)) = Some (CsvFile []) /\
  exists (w' : World) (perf theory : Figure),
    main (initial_world sample_files_empty) = Ok tt w' /\
    stdout w' =
      stdout (initial_world sample_files_empty) ++ banner ++
        [ Text "Data loaded successfully:";
          TextInt "Total records: " 0;
          TextInts "Array sizes: " [];
          TextStrs "Distributions: " [];
          Text (nl ++ "=== STATISTICAL SUMMARY ===");
          TextInt "Total benchmark runs: " 0;
          TextInts "Array sizes tested: " [];
          Text (nl ++ "Average Time by Array Size:");
          FrameByInt ["mean"; "std"; "min"; "max"]%string [];
          Text (nl ++ "Average Time by Input Distribution:");
          FrameByStr ["mean"; "std"]%string [];
          Text (nl ++ "Complexity Analysis (Time vs Size correlation):");
          TextNum "Correlation coefficient: " NaN;
          Text (nl ++ "Efficiency Metrics:");
          Text "Average time per element (ns):";
          SeriesByInt [];
          closing_line ] /\
    saved_figure "performance_analysis.png" w' = Some perf /\
    saved_figure "theory_vs_practice.png" w' = Some theory /\
    map position (axes perf) = [(2, 2, 4); (2, 2, 3); (2, 2, 2); (2, 2, 1)] /\
    (forall ax, In ax (axes perf ++ axes theory) ->
       boxes ax = None /\ forall l, In l (lines ax) -> points l = []).
Proof.
  split; [reflexivity|].
  apply (run_on_empty_table (initial_world sample_files_empty)).
  reflexivity.
Defined.

Lemma efficiency_witness :
  In 100 (sorted (unique (col ArraySize (loaded sample_table)))) /\
  100 <> 0 /\
  exists (m : Q) (sd lo hi : fval),
    In (100, [Fin m; sd; lo; hi]) (time_by_size (loaded sample_table)) /\
    In (100, Fin (qdiv m (inject_Z 100)))
       (efficiency (set_TimePerElement (time_per_element (loaded sample_table))
                                       (loaded sample_table))) /\
    (qdiv m (inject_Z 100) == m / inject_Z 100)%Q.
Proof.
  assert (Hin : In 100 (sorted (unique (col ArraySize (loaded sample_table)))))
    by (cbn; right; left; reflexivity).
  split; [exact Hin|]. split; [discriminate|].
  apply (proj2 (proj2 (efficiency_is_mean_time_over_size (loaded sample_table)))).
  - exact Hin.
  - discriminate.
Defined.

Lemma summarizer_twice_witness :
  frame_at (world_with sample_table) 0%nat = Some (loaded sample_table) /\
  exists (w1 w2 : World) (printed : list out),
    generate_statistical_summary 0%nat (world_with sample_table) = Ok tt w1 /\
    generate_statistical_summary 0%nat w1 = Ok tt w2 /\
    stdout w1 = stdout (world_with sample_table) ++ printed /\
    stdout w2 = stdout w1 ++ printed /\
    frames w2 = frames w1 /\
    frame_at w1 0%nat =
      Some {| records := records (loaded sample_table);
              TimePerElement := Some (time_per_element (loaded sample_table)) |}.
Proof.
  split; [reflexivity|].
  apply (summarizer_can_run_twice (world_with sample_table) 0%nat
           (loaded sample_table)).
  reflexivity.
Defined.



Lemma sample_single_size :
  forall r, In r (records (loaded sample_table_single_size)) -> ArraySize r = 100.
Proof.
  intros r Hr. cbn in Hr.
  repeat (destruct Hr as [<- | Hr]; [reflexivity|]). contradiction.
Defined.

Lemma correlation_witness :
  (sqrtQ 0 == 0)%Q /\
  (forall r, In r (records (loaded sample_table_single_size)) -> ArraySize r = 100) /\
  correlation (loaded sample_table_single_size) = NaN /\
  fround 4 (correlation (loaded sample_table_single_size)) = NaN.
Proof.
  split; [reflexivity|]. split; [exact sample_single_size|].
  apply (correlation_is_nan_for_a_single_size (loaded sample_table_single_size) 100).
  - reflexivity.
  - exact sample_single_size.
Defined.
